(** * ts_envsensors: the command handler and the instrument read loop

    A shallow embedding of [CommandHandler] (command_handler.py) and
    [EssInstrument] (ess_instrument_object.py).

    - Python values are the JSON values a configuration is built from;
      a [dict] is a finite map with string keys.
    - A coroutine is a function from the world to an outcome and a new world.
      An exception leaves every mutation made before it in place, as in
      Python.
    - [EssInstrument] objects live in a store and are named by reference, so
      that [list.remove], which compares by identity, and the mutation of an
      object held in [_ess_instruments] are modelled as they happen.
    - What the handler does to its collaborators (the callback, the asyncio
      task of a read loop, the reader) is recorded in order as events. *)

From Stdlib Require Import ZArith String Ascii.
From stdpp Require Import gmap strings list fin_maps.

Open Scope string_scope.
Open Scope list_scope.

(* ===================================================================== *)
(** ** Python values *)
(* ===================================================================== *)

(** The values reachable from a configuration: [None], [bool], [int], [str],
    [list] and [dict] with [str] keys.  Floats are left out: no operation of
    the handler looks inside a number. *)
#[warnings="-register-all"]
Inductive any : Type :=
| ANone
| ABool (b : bool)
| AInt (z : Z)
| AStr (s : string)
| AList (l : list any)
| ADict (d : gmap string any).

(** Modelled from the spec: response_code.py is not among the sources; the
    codes are the five the spec enumerates. *)
Inductive ResponseCode : Type :=
| OK
| ALREADY_STARTED
| NOT_CONFIGURED
| NOT_STARTED
| INVALID_CONFIGURATION.

(** The message of a [CommandError], one constructor per [raise] site of
    command_handler.py. *)
Inductive message : Type :=
| MissingConfigurationKey          (* line 131 *)
| ExpectedOneConfigurationKey (n : nat) (* line 137 *)
| ConfigurationDataMissing         (* line 144 *)
| MandatoryKeysMissing             (* line 174 *)
| BadDeviceType                    (* line 181 *)
| MissingFtdiId                    (* line 189 *)
| MissingSerialPort                (* line 197 *)
| TelemetryLoopAlreadyRunning      (* line 220 *)
| NoConfigurationReceived          (* line 240 *)
| NotStartedYet.                   (* line 281 *)

(** Exceptions.  [CommandError] (command_error.py) carries a message and a
    response code; the others carry nothing the handler ever inspects.  The
    last two are not Python's: [SystemError] is the model's answer to a
    reference with no object, [OutOfFuel] to a loop that outlives its bound.
    [handle_command_sound] shows that neither is ever met. *)
Inductive exn : Type :=
| CommandError (msg : message) (response_code : ResponseCode)
| RuntimeError
| TypeError
| KeyError (k : string)
| AttributeError
| ValueError
| SystemError
| OutOfFuel.

Inductive result (A : Type) : Type :=
| Return (a : A)
| Raise (e : exn).
Arguments Return {A} a.
Arguments Raise {A} e.

(** [needle in hay] on two [str]: substring test. *)
Fixpoint str_contains (needle hay : string) : bool :=
  String.prefix needle hay ||
  match hay with
  | EmptyString => false
  | String _ rest => str_contains needle rest
  end.

(** The characters of a [str], as iteration yields them. *)
Fixpoint str_chars (s : string) : list any :=
  match s with
  | EmptyString => []
  | String c rest => AStr (String c EmptyString) :: str_chars rest
  end.

(** [x == s] for a [str] (or [str]-valued enum member) [s]. *)
Definition eq_str (s : string) (x : any) : bool :=
  match x with
  | AStr t => bool_decide (t = s)
  | _ => false
  end.

(** Truth value: [bool(v)]. *)
Definition truthy (v : any) : bool :=
  match v with
  | ANone => false
  | ABool b => b
  | AInt z => negb (Z.eqb z 0)
  | AStr s => negb (bool_decide (s = ""))
  | AList l => match l with [] => false | _ :: _ => true end
  | ADict d => negb (bool_decide (size d = 0%nat))
  end.

(** [k in v] for a [str] key [k]. *)
Definition py_in (k : string) (v : any) : result bool :=
  match v with
  | ADict d => Return (bool_decide (is_Some (d !! k)))
  | AStr s => Return (str_contains k s)
  | AList l => Return (existsb (eq_str k) l)
  | ANone | ABool _ | AInt _ => Raise TypeError
  end.

(** [v[k]] for a [str] key [k]. *)
Definition py_getitem (v : any) (k : string) : result any :=
  match v with
  | ADict d =>
      match d !! k with
      | Some x => Return x
      | None => Raise (KeyError k)
      end
  | _ => Raise TypeError
  end.

(** [len(v.keys())]. *)
Definition py_len_keys (v : any) : result nat :=
  match v with
  | ADict d => Return (size d)
  | _ => Raise AttributeError
  end.

(** The items a [for] loop over [v] visits.  A [dict] yields its keys; the
    finite map keeps no insertion order, so they come in the order of
    [map_to_list]. *)
Definition py_iter (v : any) : result (list any) :=
  match v with
  | AList l => Return l
  | AStr s => Return (str_chars s)
  | ADict d => Return (AStr <$> (map_to_list d).*1)
  | ANone | ABool _ | AInt _ => Raise TypeError
  end.

(* ===================================================================== *)
(** ** Constants *)
(* ===================================================================== *)

(** Modelled from the spec: constants.py ([Key], [DeviceType], [Command]) is
    not among the sources.  The members are [str]-valued, so they compare
    equal to the strings a configuration holds; their values are the key,
    type and command names the spec writes. *)
Module Key.
Definition CHANNELS := "channels".
Definition DEVICES := "devices".
Definition FTDI_ID := "ftdi_id".
Definition NAME := "name".
Definition SERIAL_PORT := "serial_port".
Definition TYPE := "type".
End Key.

Module DeviceType.
Definition FTDI := "FTDI".
Definition SERIAL := "SERIAL".
End DeviceType.

Module Command.
Definition CONFIGURE := "configure".
Definition START := "start".
Definition STOP := "stop".
End Command.

(* ===================================================================== *)
(** ** Validation (command_handler.py, lines 113-199) *)
(* ===================================================================== *)

Definition invalid {A} (msg : message) : result A :=
  Raise (CommandError msg INVALID_CONFIGURATION).

(** Sequencing of fallible steps that touch no state: the first exception
    ends the sequence. *)
#[global] Instance result_ret : MRet result := fun A a => Return a.
#[global] Instance result_bind : MBind result := fun A B k r =>
  match r with
  | Return a => k a
  | Raise e => Raise e
  end.

(** [a or b] on conditions that may raise: [b] is evaluated only when [a] is
    false. *)
Definition py_or (a : result bool) (b : result bool) : result bool :=
  x ← a; if x : bool then Return true else b.

Definition not_in (k : string) (v : any) : result bool :=
  b ← py_in k v; Return (negb b).

Definition _validate_device_configuration (device_configuration : any)
  : result unit :=
  missing ← py_or (not_in Key.NAME device_configuration)
                (py_or (not_in Key.CHANNELS device_configuration)
                       (not_in Key.TYPE device_configuration));
  if missing : bool then invalid MandatoryKeysMissing else
  t ← py_getitem device_configuration Key.TYPE;
  if negb (eq_str DeviceType.FTDI t || eq_str DeviceType.SERIAL t)
  then invalid BadDeviceType else
  t1 ← py_getitem device_configuration Key.TYPE;
  no_ftdi_id ← (if eq_str DeviceType.FTDI t1
                  then not_in Key.FTDI_ID device_configuration
                  else Return false);
  if no_ftdi_id : bool then invalid MissingFtdiId else
  t2 ← py_getitem device_configuration Key.TYPE;
  no_serial_port ← (if eq_str DeviceType.SERIAL t2
                      then not_in Key.SERIAL_PORT device_configuration
                      else Return false);
  if no_serial_port : bool then invalid MissingSerialPort else
  Return tt.

(** The [for] loop of [_validate_configuration]: the first device that raises
    ends it. *)
Fixpoint validate_devices (device_configurations : list any) : result unit :=
  match device_configurations with
  | [] => Return tt
  | device_configuration :: rest =>
      _ ← _validate_device_configuration device_configuration;
      validate_devices rest
  end.

Definition _validate_configuration (configuration : any) : result unit :=
  no_devices ← not_in Key.DEVICES configuration;
  if no_devices : bool then invalid MissingConfigurationKey else
  n ← py_len_keys configuration;
  if negb (Nat.eqb n 1) then invalid (ExpectedOneConfigurationKey n) else
  device_configurations ← py_getitem configuration Key.DEVICES;
  if negb (truthy device_configurations) then invalid ConfigurationDataMissing
  else
  items ← py_iter device_configurations;
  validate_devices items.

(* ===================================================================== *)
(** ** Objects, the world and coroutines *)
(* ===================================================================== *)

(** The three device back ends [_get_device] can construct.  Their classes
    are external; a device is what its constructor was given. *)
Inductive device : Type :=
| MockTemperatureSensor (name channels : any) (disconnected_channel : any)
| VcpFtdi (name ftdi_id : any)
| RpiSerialHat (name serial_port : any).

(** [SelTemperature(name, uart_device, channels, log)]. *)
Record SelTemperature : Type := {
  sel_name : any;
  uart_device : device;
  channels : any;
}.

(** The attributes of an [EssInstrument].  [telemetry_loop] is [None] or the
    asyncio task of the read loop, named by its number. *)
Record EssInstrument : Type := {
  _reader : SelTemperature;
  _enabled : bool;
  name : any;
  telemetry_loop : option nat;
}.

(** The attributes of a [CommandHandler].  [_configuration] is [None] or the
    last accepted configuration; [_ess_instruments] holds references into the
    store. *)
Record CommandHandler : Type := {
  simulation_mode : Z;
  _configuration : any;
  _started : bool;
  _ess_instruments : list nat;
  disconnected_channel : any;
}.

(** What is sent to the callback: [{Key.RESPONSE: code}] or
    [{Key.TELEMETRY: telemetry}]. *)
Inductive payload : Type :=
| Response (code : ResponseCode)
| Telemetry (telemetry : any).

(** The operations on collaborators, in the order they happen.  [TaskAwait]
    stands for [await task]; it is part of the vocabulary so that a trace can
    say whether a task was awaited. *)
Inductive event : Type :=
| Callback (data : payload)            (* await self._callback(data) *)
| EnsureFuture (ref : nat) (task : nat) (* asyncio.ensure_future(self._run()) *)
| TaskCancel (task : nat)              (* self.telemetry_loop.cancel() *)
| TaskAwait (task : nat)               (* await self.telemetry_loop *)
| ReaderStop (ref : nat).              (* await self._reader.stop() *)

(** The world a coroutine runs in: the handler, the store of instruments
    (a reference is an index, a new object goes at the end), the number of
    tasks created so far, the string [platform.platform()] returns, and the
    events so far. *)
Record world : Type := {
  self : CommandHandler;
  heap : list EssInstrument;
  tasks : nat;
  platform : string;
  events : list event;
}.

Definition set_self (f : CommandHandler -> CommandHandler) (w : world) : world :=
  {| self := f (self w); heap := heap w; tasks := tasks w;
     platform := platform w; events := events w |}.

Definition set_heap (f : list EssInstrument -> list EssInstrument) (w : world)
  : world :=
  {| self := self w; heap := f (heap w); tasks := tasks w;
     platform := platform w; events := events w |}.

Definition set_configuration (c : any) (h : CommandHandler) : CommandHandler :=
  {| simulation_mode := simulation_mode h; _configuration := c;
     _started := _started h; _ess_instruments := _ess_instruments h;
     disconnected_channel := disconnected_channel h |}.

Definition set_started (b : bool) (h : CommandHandler) : CommandHandler :=
  {| simulation_mode := simulation_mode h; _configuration := _configuration h;
     _started := b; _ess_instruments := _ess_instruments h;
     disconnected_channel := disconnected_channel h |}.

Definition set_ess_instruments (l : list nat) (h : CommandHandler)
  : CommandHandler :=
  {| simulation_mode := simulation_mode h; _configuration := _configuration h;
     _started := _started h; _ess_instruments := l;
     disconnected_channel := disconnected_channel h |}.

Definition set_enabled (b : bool) (o : EssInstrument) : EssInstrument :=
  {| _reader := _reader o; _enabled := b; name := name o;
     telemetry_loop := telemetry_loop o |}.

Definition set_telemetry_loop (t : option nat) (o : EssInstrument)
  : EssInstrument :=
  {| _reader := _reader o; _enabled := _enabled o; name := name o;
     telemetry_loop := t |}.

(** A coroutine or method with effects. *)
Definition M (A : Type) : Type := world -> result A * world.

#[global] Instance M_ret : MRet M := fun A a w => (Return a, w).
#[global] Instance M_bind : MBind M := fun A B k m w =>
  match m w with
  | (Return a, w') => k a w'
  | (Raise e, w') => (Raise e, w')
  end.

Definition raise {A} (e : exn) : M A := fun w => (Raise e, w).
Definition lift {A} (r : result A) : M A := fun w => (r, w).
Definition get : M world := fun w => (Return w, w).
Definition modify (f : world -> world) : M unit := fun w => (Return tt, f w).
Definition emit (e : event) : M unit :=
  modify (fun w =>
    {| self := self w; heap := heap w; tasks := tasks w;
       platform := platform w; events := events w ++ [e] |}).

(** Reading an object through a reference.  Python has no reference without
    an object; the model's store could, and answers with [SystemError], which
    no run of the handler from [CommandHandler_init] meets. *)
Definition deref (ref : nat) : M EssInstrument := fun w =>
  match heap w !! ref with
  | Some o => (Return o, w)
  | None => (Raise SystemError, w)
  end.

(** Assignment to an attribute of the object behind [ref]. *)
Definition update (ref : nat) (f : EssInstrument -> EssInstrument) : M unit :=
  o ← deref ref; modify (set_heap (fun h => <[ref := f o]> h)).

(* ===================================================================== *)
(** ** EssInstrument (ess_instrument_object.py) *)
(* ===================================================================== *)

(** [EssInstrument(name, reader, callback_func, log)]: a new object, not
    enabled and without a task.  The callback is always the handler's
    [_process_sensor_telemetry]; logging is left out throughout. *)
Definition EssInstrument_new (nm : any) (reader : SelTemperature) : M nat :=
  fun w =>
    (Return (length (heap w)),
     set_heap (fun h => h ++ [ {| _reader := reader; _enabled := false;
                                  name := nm; telemetry_loop := None |} ]) w).

(** [asyncio.ensure_future(self._run())]: the read loop of [ref] becomes a
    new task, which runs when the event loop next gets control. *)
Definition ensure_future (ref : nat) : M nat := fun w =>
  (Return (tasks w),
   {| self := self w; heap := heap w; tasks := S (tasks w);
      platform := platform w;
      events := events w ++ [EnsureFuture ref (tasks w)] |}).

(** [EssInstrument.start] (lines 70-75). *)
Definition start (ref : nat) : M unit :=
  update ref (set_enabled true);;
  task ← ensure_future ref;
  update ref (set_telemetry_loop (Some task)).

(** [EssInstrument.stop] (lines 77-84). *)
Definition stop (ref : nat) : M unit :=
  o ← deref ref;
  (if _enabled o then
     match telemetry_loop o with
     | Some task => emit (TaskCancel task)
     | None => raise AttributeError
     end;;
     emit (ReaderStop ref)
   else mret tt);;
  update ref (set_enabled false).

(* ===================================================================== *)
(** ** CommandHandler (command_handler.py) *)
(* ===================================================================== *)

(** [CommandHandler.__init__] (lines 69-92). *)
Definition CommandHandler_init (simulation_mode : Z) : result CommandHandler :=
  if negb (Z.eqb simulation_mode 0 || Z.eqb simulation_mode 1)
  then Raise ValueError
  else Return {| simulation_mode := simulation_mode;
                 _configuration := ANone;
                 _started := false;
                 _ess_instruments := [];
                 disconnected_channel := ANone |}.

(** The world right after the handler was constructed on a host whose
    [platform.platform()] is [host]. *)
Definition init_world (simulation_mode : Z) (host : string) : result world :=
  h ← CommandHandler_init simulation_mode;
  Return {| self := h; heap := []; tasks := 0; platform := host;
            events := [] |}.

(** [self._callback(data)]: the sink receives [data]. *)
Definition _callback (data : payload) : M unit := emit (Callback data).

(** [_process_sensor_telemetry] (lines 290-305). *)
Definition _process_sensor_telemetry (telemetry : any) : M unit :=
  _callback (Telemetry telemetry).

(** [_get_device] (lines 307-362).  It reads the handler and the host
    platform and changes nothing. *)
Definition _get_device (h : CommandHandler) (host : string)
    (device_configuration : any) : result device :=
  dev ← (if Z.eqb (simulation_mode h) 1 then
           nm ← py_getitem device_configuration Key.NAME;
           ch ← py_getitem device_configuration Key.CHANNELS;
           Return (Some (MockTemperatureSensor nm ch (disconnected_channel h)))
         else
           t ← py_getitem device_configuration Key.TYPE;
           if eq_str DeviceType.FTDI t then
             nm ← py_getitem device_configuration Key.NAME;
             id ← py_getitem device_configuration Key.FTDI_ID;
             Return (Some (VcpFtdi nm id))
           else
             t' ← py_getitem device_configuration Key.TYPE;
             if eq_str DeviceType.SERIAL t' then
               if str_contains "aarch64" host then
                 nm ← py_getitem device_configuration Key.NAME;
                 port ← py_getitem device_configuration Key.SERIAL_PORT;
                 Return (Some (RpiSerialHat nm port))
               else Return None
             else Return None);
  match dev with
  | None =>
      _ ← py_getitem device_configuration "type";
      Raise RuntimeError
  | Some d => Return d
  end.

(** [configure] (lines 201-225). *)
Definition configure (configuration : any) : M unit :=
  w ← get;
  if _started (self w)
  then raise (CommandError TelemetryLoopAlreadyRunning ALREADY_STARTED)
  else
    lift (_validate_configuration configuration);;
    modify (set_self (set_configuration configuration)).

(** The body of the [for] loop of [connect_devices] (lines 251-266). *)
Definition connect_device (device_configuration : any) : M unit :=
  w ← get;
  dev ← lift (_get_device (self w) (platform w) device_configuration);
  nm ← lift (py_getitem device_configuration Key.NAME);
  ch ← lift (py_getitem device_configuration Key.CHANNELS);
  let sel_temperature :=
    {| sel_name := nm; uart_device := dev; channels := ch |} in
  nm' ← lift (py_getitem device_configuration Key.NAME);
  ess_instrument ← EssInstrument_new nm' sel_temperature;
  modify (set_self (fun h =>
    set_ess_instruments (_ess_instruments h ++ [ess_instrument]) h));;
  start ess_instrument.

Fixpoint connect_loop (device_configurations : list any) : M unit :=
  match device_configurations with
  | [] => mret tt
  | device_configuration :: rest =>
      connect_device device_configuration;;
      connect_loop rest
  end.

(** [connect_devices] (lines 246-266). *)
Definition connect_devices : M unit :=
  w ← get;
  device_configurations ←
    lift (py_getitem (_configuration (self w)) Key.DEVICES);
  items ← lift (py_iter device_configurations);
  connect_loop items.

(** [start_sending_telemetry] (lines 227-244). *)
Definition start_sending_telemetry : M unit :=
  w ← get;
  if negb (truthy (_configuration (self w)))
  then raise (CommandError NoConfigurationReceived NOT_CONFIGURED)
  else
    connect_devices;;
    modify (set_self (set_started true)).

(** [list.remove(x)]: drop the first item equal to [x]; instruments compare by
    identity, that is by reference.  [None] when there is no such item, where
    Python raises [ValueError]. *)
Fixpoint list_remove (x : nat) (l : list nat) : option (list nat) :=
  match l with
  | [] => None
  | y :: rest =>
      if Nat.eqb x y then Some rest
      else cons y <$> list_remove x rest
  end.

Definition remove_instrument (ref : nat) : M unit :=
  w ← get;
  match list_remove ref (_ess_instruments (self w)) with
  | Some l => modify (set_self (set_ess_instruments l))
  | None => raise ValueError
  end.

(** The [for] loop of [stop_sending_telemetry] (lines 285-287).  The list
    iterator keeps an index into the list itself: each step reads the item at
    the index from the list as it is then, and ends the loop when the index
    has reached the length.  [fuel] bounds the number of passes; a pass that
    finds no fuel raises [OutOfFuel]. *)
Fixpoint stop_loop (fuel : nat) (index : nat) : M unit :=
  fun w =>
    match _ess_instruments (self w) !! index with
    | None => (Return tt, w)
    | Some ess_instrument =>
        match fuel with
        | O => (Raise OutOfFuel, w)
        | S fuel' =>
            (stop ess_instrument;;
             remove_instrument ess_instrument;;
             stop_loop fuel' (S index)) w
        end
    end.

(** [stop_sending_telemetry] (lines 268-288).  Every pass of the loop removes
    an item, so the length of the list at its start bounds the passes. *)
Definition stop_sending_telemetry : M ResponseCode :=
  w ← get;
  if negb (_started (self w))
  then raise (CommandError NotStartedYet NOT_STARTED)
  else
    modify (set_self (set_started false));;
    stop_loop (length (_ess_instruments (self w))) 0;;
    mret OK.

(** The three coroutines [dispatch_dict] maps a command to. *)
Inductive handler : Type :=
| Hconfigure
| Hstart_sending_telemetry
| Hstop_sending_telemetry.

Definition dispatch_dict : gmap string handler :=
  {[ Command.CONFIGURE := Hconfigure;
     Command.START := Hstart_sending_telemetry;
     Command.STOP := Hstop_sending_telemetry ]}.

(** The awaited call of [func] with the keywords [kwargs] (line 107): the
    keywords must be exactly the parameters of
    the coroutine, else the call raises [TypeError]; the value a coroutine
    returns is dropped. *)
Definition call (func : handler) (kwargs : gmap string any) : M unit :=
  match func with
  | Hconfigure =>
      match kwargs !! "configuration" with
      | Some configuration =>
          if Nat.eqb (size kwargs) 1 then configure configuration
          else raise TypeError
      | None => raise TypeError
      end
  | Hstart_sending_telemetry =>
      if Nat.eqb (size kwargs) 0 then start_sending_telemetry
      else raise TypeError
  | Hstop_sending_telemetry =>
      if Nat.eqb (size kwargs) 0 then stop_sending_telemetry;; mret tt
      else raise TypeError
  end.

(** [handle_command] (lines 94-111): only a [CommandError] is caught. *)
Definition handle_command (command : string) (kwargs : gmap string any)
  : M unit :=
  match dispatch_dict !! command with
  | None => raise (KeyError command)
  | Some func =>
      fun w =>
        match call func kwargs w with
        | (Return _, w') => _callback (Response OK) w'
        | (Raise (CommandError _ response_code), w') =>
            _callback (Response response_code) w'
        | (Raise e, w') => (Raise e, w')
        end
  end.

(* ===================================================================== *)
(** ** Vocabulary of the properties *)
(* ===================================================================== *)

(** What one device record must not do, in the words of the validation
    rules: lack [name], [channels] or [type]; declare a type other than FTDI
    or SERIAL; be FTDI without [ftdi_id]; be SERIAL without [serial_port]. *)
Definition device_violation (d : gmap string any) : Prop :=
  d !! Key.NAME = None ∨ d !! Key.CHANNELS = None ∨ d !! Key.TYPE = None
  ∨ (∃ t, d !! Key.TYPE = Some t
          ∧ t ≠ AStr DeviceType.FTDI ∧ t ≠ AStr DeviceType.SERIAL)
  ∨ (d !! Key.TYPE = Some (AStr DeviceType.FTDI) ∧ d !! Key.FTDI_ID = None)
  ∨ (d !! Key.TYPE = Some (AStr DeviceType.SERIAL)
     ∧ d !! Key.SERIAL_PORT = None).

(** [rejected r]: [r] is a [CommandError] with code
    [INVALID_CONFIGURATION]. *)
Definition rejected (r : result unit) : Prop :=
  ∃ msg, r = Raise (CommandError msg INVALID_CONFIGURATION).

(** The device sequence of a configuration: [configuration["devices"]] when
    it is a list. *)
Definition devices_of (configuration : any) : list any :=
  match configuration with
  | ADict m =>
      match m !! Key.DEVICES with
      | Some (AList l) => l
      | _ => []
      end
  | _ => []
  end.

(** Whether [_get_device] produces a device. *)
Definition resolves (h : CommandHandler) (host : string) (dc : any) : bool :=
  match _get_device h host dc with
  | Return _ => true
  | Raise _ => false
  end.

(** The payloads the sink received, oldest first. *)
Fixpoint callbacks (es : list event) : list payload :=
  match es with
  | [] => []
  | Callback data :: rest => data :: callbacks rest
  | _ :: rest => callbacks rest
  end.

(** An instrument whose read loop was started and not stopped since. *)
Definition running (o : EssInstrument) : Prop :=
  _enabled o = true ∧ ∃ task, telemetry_loop o = Some task.

(** Every reference the handler holds has an object behind it. *)
Definition refs_ok (w : world) : Prop :=
  Forall (fun ref => ref < length (heap w)) (_ess_instruments (self w)).

(** The world after [connect_device] succeeded with device [dev] for a record
    named [nm] with channels [ch]. *)
Definition connected (dev : device) (nm ch : any) (w : world) : world :=
  {| self := set_ess_instruments
               (_ess_instruments (self w) ++ [length (heap w)]) (self w);
     heap := heap w ++
       [ {| _reader := {| sel_name := nm; uart_device := dev; channels := ch |};
            _enabled := true; name := nm;
            telemetry_loop := Some (tasks w) |} ];
     tasks := S (tasks w);
     platform := platform w;
     events := events w ++ [EnsureFuture (length (heap w)) (tasks w)] |}.

(** A record that passed [_validate_device_configuration]. *)
Definition validated (dc : any) : Prop :=
  _validate_device_configuration dc = Return tt.

(** [w'] is [w] after [n] instruments were created and started one after the
    other: their references, the next [n] of the store, were appended to
    [_ess_instruments] in order; each new object is running; each start
    scheduled one task; the sink received nothing; nothing else changed. *)
Definition started_instruments (n : nat) (w w' : world) : Prop :=
  _ess_instruments (self w')
  = _ess_instruments (self w) ++ seq (length (heap w)) n
  ∧ (∃ new, heap w' = heap w ++ new ∧ length new = n ∧ Forall running new)
  ∧ events w'
    = events w ++
      ((fun i => EnsureFuture (length (heap w) + i) (tasks w + i)) <$> seq 0 n)
  ∧ tasks w' = tasks w + n
  ∧ platform w' = platform w
  ∧ simulation_mode (self w') = simulation_mode (self w)
  ∧ disconnected_channel (self w') = disconnected_channel (self w)
  ∧ _configuration (self w') = _configuration (self w)
  ∧ _started (self w') = _started (self w).

(** [w'] differs from [w] in no way the sink, the size of the store or the
    platform can tell, and the instruments the handler holds in [w'] are
    among those it held in [w]. *)
Definition quiet (w w' : world) : Prop :=
  callbacks (events w') = callbacks (events w)
  ∧ length (heap w') = length (heap w)
  ∧ platform w' = platform w
  ∧ (∀ ref, ref ∈ _ess_instruments (self w') → ref ∈ _ess_instruments (self w))
  ∧ (length (_ess_instruments (self w'))
     ≤ length (_ess_instruments (self w)))%nat.

(** The exceptions Python itself can raise, as opposed to the two of the
    model. *)
Definition python_exn (e : exn) : Prop := e ≠ SystemError ∧ e ≠ OutOfFuel.

(** A computation on values that raises Python's exceptions only. *)
Definition pure_python {A} (r : result A) : Prop :=
  ∀ e, r = Raise e → python_exn e.

(** The world [init_world] returns when the simulation mode is valid: the
    handler as [__init__] leaves it, no instrument, no task, no event. *)
Definition fresh_world (mode : Z) (host : string) : world :=
  {| self := {| simulation_mode := mode; _configuration := ANone;
                _started := false; _ess_instruments := [];
                disconnected_channel := ANone |};
     heap := []; tasks := 0; platform := host; events := [] |}.

(* ===================================================================== *)
(** ** Two sentences of the specification, as they are written *)
(* ===================================================================== *)

(** "Every invocation, success or failure, emits exactly one reply": on a
    recognized command and any keywords the sink receives one reply more. *)
Definition exactly_one_reply : Prop :=
  ∀ (command : string) (kwargs : gmap string any) (w : world),
    command = Command.CONFIGURE ∨ command = Command.START
    ∨ command = Command.STOP →
    ∃ r w' code,
      handle_command command kwargs w = (r, w')
      ∧ callbacks (events w') = callbacks (events w) ++ [Response code].

(** "[stop()] cancels the polling task, awaits its termination, then stops
    the underlying reader": among what [stop] does to a running instrument
    come, in this order, the cancellation of its task, the await of that
    task and the stop of the reader. *)
Definition stop_awaits_task : Prop :=
  ∀ (w : world) (ref : nat) (o : EssInstrument) (task : nat),
    heap w !! ref = Some o → _enabled o = true →
    telemetry_loop o = Some task →
    ∃ w' es,
      stop ref w = (Return tt, w')
      ∧ events w' = events w ++ es
      ∧ [TaskCancel task; TaskAwait task; ReaderStop ref] `sublist_of` es.

(* ===================================================================== *)
(** ** Example configurations and worlds *)
(* ===================================================================== *)

Definition ftdi_record (nm : string) : gmap string any :=
  {[ Key.NAME := AStr nm; Key.CHANNELS := AInt 4;
     Key.TYPE := AStr DeviceType.FTDI; Key.FTDI_ID := AStr "AL05OBVR" ]}.

Definition serial_record (nm : string) : gmap string any :=
  {[ Key.NAME := AStr nm; Key.CHANNELS := AInt 4;
     Key.TYPE := AStr DeviceType.SERIAL;
     Key.SERIAL_PORT := AStr "serial_ch_1" ]}.

(** A SERIAL record without [serial_port]. *)
Definition portless_record (nm : string) : gmap string any :=
  {[ Key.NAME := AStr nm; Key.CHANNELS := AInt 4;
     Key.TYPE := AStr DeviceType.SERIAL ]}.

Definition configuration_of (ds : list (gmap string any)) : gmap string any :=
  {[ Key.DEVICES := AList (ADict <$> ds) ]}.

(** Two devices: an FTDI one, then a SERIAL one. *)
Definition two_devices : any :=
  ADict (configuration_of [ftdi_record "d1"; serial_record "d2"]).

(** What [platform.platform()] returns on a desktop and on a Raspberry Pi. *)
Definition desktop : string := "Linux-5.15.0-x86_64-with-glibc2.35".
Definition raspberry : string := "Linux-5.4.0-1028-raspi-aarch64-with-glibc2.29".

Definition configure_with (c : any) : string * gmap string any :=
  (Command.CONFIGURE, {[ "configuration" := c ]}).
Definition start_command : string * gmap string any := (Command.START, ∅).
Definition stop_command : string * gmap string any := (Command.STOP, ∅).

(** Handling a sequence of commands: after each, what [handle_command]
    returned and the instruments the handler then holds; at the end, the
    world. *)
Fixpoint handle_all (commands : list (string * gmap string any)) (w : world)
  : list (result unit * list nat) * world :=
  match commands with
  | [] => ([], w)
  | (command, kwargs) :: rest =>
      let (r, w1) := handle_command command kwargs w in
      let (log, w') := handle_all rest w1 in
      ((r, _ess_instruments (self w1)) :: log, w')
  end.

(** Simulation mode on; configured with the two devices and started. *)
Definition simulated_started : world :=
  (handle_all [configure_with two_devices; start_command]
     (fresh_world 1 desktop)).2.

(** Simulation mode off, on a desktop; configured with the two devices. *)
Definition desktop_configured : world :=
  (handle_all [configure_with two_devices] (fresh_world 0 desktop)).2.

(** One running instrument, as [EssInstrument.start] leaves it. *)
Definition running_instrument : EssInstrument :=
  {| _reader := {| sel_name := AStr "d1";
                   uart_device := VcpFtdi (AStr "d1") (AStr "AL05OBVR");
                   channels := AInt 4 |};
     _enabled := true; name := AStr "d1"; telemetry_loop := Some 0 |}.

Definition one_running : world :=
  {| self := {| simulation_mode := 0; _configuration := ANone;
                _started := false; _ess_instruments := [0];
                disconnected_channel := ANone |};
     heap := [running_instrument]; tasks := 1; platform := desktop;
     events := [EnsureFuture 0 0] |}.

(** The items a loop that removes each item it visits leaves in a list:
    every other one, starting with the second. *)
Fixpoint every_other (l : list nat) : list nat :=
  match l with
  | _ :: kept :: rest => kept :: every_other rest
  | _ => []
  end.

(** An instrument [stop] can be called on: when enabled it has its task, as
    [start] leaves it. *)
Definition stoppable (o : EssInstrument) : Prop :=
  _enabled o = true → is_Some (telemetry_loop o).

(** What no coroutine but the ones named changes: the simulation mode, the
    disconnected channel and the platform never change; [_configuration] and
    [_started] are compared apart. *)
Definition same_settings (w w' : world) : Prop :=
  simulation_mode (self w') = simulation_mode (self w)
  ∧ disconnected_channel (self w') = disconnected_channel (self w)
  ∧ platform w' = platform w
  ∧ _configuration (self w') = _configuration (self w)
  ∧ _started (self w') = _started (self w).

(** The states the handler is meant to be in: the stored configuration is
    [None] or passed validation, and a started handler has one. *)
Definition state_ok (w : world) : Prop :=
  (_configuration (self w) = ANone
   ∨ _validate_configuration (_configuration (self w)) = Return tt)
  ∧ (_started (self w) = true →
     _validate_configuration (_configuration (self w)) = Return tt).

(** A device record as validation wants it: [name], [channels], and a type
    FTDI with [ftdi_id] or SERIAL with [serial_port]. *)
Definition well_formed_record (d : gmap string any) : Prop :=
  is_Some (d !! Key.NAME) ∧ is_Some (d !! Key.CHANNELS)
  ∧ ((d !! Key.TYPE = Some (AStr DeviceType.FTDI)
      ∧ is_Some (d !! Key.FTDI_ID))
     ∨ (d !! Key.TYPE = Some (AStr DeviceType.SERIAL)
        ∧ is_Some (d !! Key.SERIAL_PORT))).


(** The codes a coroutine of [dispatch_dict] raises a [CommandError] with. *)
Definition raises_code (func : handler) (code : ResponseCode) : Prop :=
  match func with
  | Hconfigure => code = ALREADY_STARTED ∨ code = INVALID_CONFIGURATION
  | Hstart_sending_telemetry => code = NOT_CONFIGURED
  | Hstop_sending_telemetry => code = NOT_STARTED
  end.

(** An exception that is not a [CommandError]. *)
Definition not_command (e : exn) : Prop :=
  ∀ msg code, e ≠ CommandError msg code.

(** A computation on values that raises no [CommandError]. *)
Definition plain {A} (r : result A) : Prop :=
  ∀ e, r = Raise e → not_command e.

(** The instrument [connect_devices] builds and starts for one record, when
    the read loop it schedules is task number [task]: reader and instrument
    carry the record's name, the reader its channels and the device
    [_get_device] chose. *)
Definition instrument_of (h : CommandHandler) (host : string) (task : nat)
    (dc : any) : result EssInstrument :=
  dev ← _get_device h host dc;
  nm ← py_getitem dc Key.NAME;
  ch ← py_getitem dc Key.CHANNELS;
  Return {| _reader := {| sel_name := nm; uart_device := dev;
                          channels := ch |};
            _enabled := true; name := nm; telemetry_loop := Some task |}.

(** The instruments are as the handler's own code leaves them: every
    reference the handler holds is to an object of the store, and every
    object can be stopped. *)
Definition instruments_ok (w : world) : Prop :=
  refs_ok w ∧ Forall stoppable (heap w).

(* ===================================================================== *)
(** ** Validation: lemmas *)
(* ===================================================================== *)

Lemma not_in_dict (k : string) (d : gmap string any) :
  not_in k (ADict d) =
  Return (match d !! k with Some _ => false | None => true end).
Proof.
  unfold not_in, py_in, mbind, result_bind.
  case_bool_decide as H; destruct (d !! k) eqn:E; try reflexivity.
  - destruct H as [x Hx]; discriminate.
  - exfalso; apply H; eauto.
Qed.

Lemma eq_str_true (s : string) (x : any) : eq_str s x = true ↔ x = AStr s.
Proof.
  destruct x; simpl; try (split; [discriminate | congruence]).
  rewrite bool_decide_eq_true. split; congruence.
Qed.

Lemma eq_str_false (s : string) (x : any) : eq_str s x = false ↔ x ≠ AStr s.
Proof.
  rewrite <- eq_str_true. destruct (eq_str s x); split; congruence.
Qed.

(** A record that passes is a [dict]: on a [str] or a [list] the subscript
    [device_configuration[Key.TYPE]] raises [TypeError], on the rest the
    first [in] does. *)
Lemma validate_device_Return_dict (x : any) :
  _validate_device_configuration x = Return tt → ∃ d, x = ADict d.
Proof.
  destruct x as [ | b | z | s | l | d]; try discriminate; eauto.
  - unfold _validate_device_configuration, py_or, not_in; simpl.
    destruct (str_contains Key.NAME s); simpl; try discriminate.
    destruct (str_contains Key.CHANNELS s); simpl; try discriminate.
    destruct (str_contains Key.TYPE s); simpl; discriminate.
  - unfold _validate_device_configuration, py_or, not_in; simpl.
    destruct (existsb (eq_str Key.NAME) l); simpl; try discriminate.
    destruct (existsb (eq_str Key.CHANNELS) l); simpl; try discriminate.
    destruct (existsb (eq_str Key.TYPE) l); simpl; discriminate.
Qed.

(** On a [dict], the record is rejected exactly when it violates a rule, and
    accepted otherwise. *)
Lemma validate_device_dict (d : gmap string any) :
  (device_violation d ∧ rejected (_validate_device_configuration (ADict d)))
  ∨ (¬ device_violation d ∧ _validate_device_configuration (ADict d) = Return tt).
Proof.
  unfold _validate_device_configuration, py_or, device_violation, rejected,
    invalid.
  rewrite !not_in_dict. simpl.
  destruct (d !! Key.NAME) as [nm|] eqn:En; simpl; [ | left; eauto 10].
  destruct (d !! Key.CHANNELS) as [ch|] eqn:Ec; simpl; [ | left; eauto 10].
  destruct (d !! Key.TYPE) as [t|] eqn:Et; simpl; [ | left; eauto 10].
  destruct (eq_str DeviceType.FTDI t) eqn:Ef; simpl.
  - apply eq_str_true in Ef; subst t.
    destruct (d !! Key.FTDI_ID) as [id|] eqn:Ei; simpl; [ | left; eauto 10].
    right. split; [ | reflexivity].
    intros [H|[H|[H|[(t & Ht & H1 & H2)|[[_ H]|[H _]]]]]]; try congruence.
    discriminate.
  - destruct (eq_str DeviceType.SERIAL t) eqn:Es; simpl.
    + apply eq_str_true in Es; subst t.
      destruct (d !! Key.SERIAL_PORT) as [p|] eqn:Ep; simpl;
        [ | left; eauto 10].
      right. split; [ | reflexivity].
      intros [H|[H|[H|[(t & Ht & H1 & H2)|[[H _]|[_ H]]]]]]; try congruence.
      discriminate.
    + apply eq_str_false in Ef, Es. left. split; eauto 10.
Qed.

Lemma validate_device_accepts (d : gmap string any) :
  _validate_device_configuration (ADict d) = Return tt ↔ ¬ device_violation d.
Proof.
  destruct (validate_device_dict d) as [[Hv [msg Hr]] | [Hv Hr]];
    rewrite Hr; split; intros; try done.
Qed.

Lemma validate_device_rejects (d : gmap string any) :
  rejected (_validate_device_configuration (ADict d)) ↔ device_violation d.
Proof.
  destruct (validate_device_dict d) as [[Hv Hr] | [Hv Hr]]; split; try done.
  rewrite Hr. intros [msg ?]; discriminate.
Qed.

(** The loop over a sequence of [dict] records. *)
Lemma validate_devices_clean (ds : list (gmap string any)) :
  Forall (fun d => ¬ device_violation d) ds →
  validate_devices (ADict <$> ds) = Return tt.
Proof.
  induction 1 as [ | d ds Hd _ IH]; simpl; [reflexivity | ].
  apply validate_device_accepts in Hd. rewrite Hd. simpl. exact IH.
Qed.

Lemma validate_devices_first (pre post : list (gmap string any))
    (d : gmap string any) :
  Forall (fun d => ¬ device_violation d) pre →
  device_violation d →
  validate_devices (ADict <$> (pre ++ d :: post))
  = _validate_device_configuration (ADict d).
Proof.
  intros Hpre Hd. induction Hpre as [ | p pre Hp _ IH]; simpl.
  - apply validate_device_rejects in Hd. destruct Hd as [msg ->]. reflexivity.
  - apply validate_device_accepts in Hp. rewrite Hp. simpl. exact IH.
Qed.

Lemma validate_devices_dict (ds : list (gmap string any)) :
  (Exists device_violation ds ∧ rejected (validate_devices (ADict <$> ds)))
  ∨ (Forall (fun d => ¬ device_violation d) ds
     ∧ validate_devices (ADict <$> ds) = Return tt).
Proof.
  induction ds as [ | d ds IH]; simpl.
  - right. split; [constructor | reflexivity].
  - destruct (validate_device_dict d) as [[Hv [msg Hr]] | [Hv Hr]]; rewrite Hr;
      simpl.
    + left. split; [by constructor | by exists msg].
    + destruct IH as [[He Hr'] | [Hf Hr']].
      * left. split; [by apply Exists_cons_tl | done].
      * right. split; [by constructor | done].
Qed.

Lemma size_1_singleton (m : gmap string any) (k : string) (v : any) :
  m !! k = Some v → size m = 1 → m = {[ k := v ]}.
Proof.
  intros Hk Hs.
  assert (delete k m = ∅) as He.
  { apply map_size_empty_inv. rewrite map_size_delete_Some by eauto.
    rewrite Hs. reflexivity. }
  rewrite <- (insert_delete_id m k v Hk), He. reflexivity.
Qed.

Lemma validate_devices_Return_dicts (l : list any) :
  validate_devices l = Return tt →
  ∃ ds : list (gmap string any),
    l = ADict <$> ds ∧ Forall (fun d => ¬ device_violation d) ds.
Proof.
  induction l as [ | x l IH]; simpl; intros H.
  - exists []. split; [reflexivity | constructor].
  - destruct (_validate_device_configuration x) as [[] | e] eqn:Hx;
      [ | discriminate].
    destruct (validate_device_Return_dict x Hx) as [d ->].
    destruct (IH H) as (ds & -> & Hds).
    exists (d :: ds). split; [reflexivity | ].
    constructor; [by apply validate_device_accepts | done].
Qed.

(** A configuration that passes validation is a [dict] with the single key
    [devices], bound to a non-empty list of [dict] records that violate no
    rule: the shape the rest of the handler relies on. *)
Lemma validated_shape (c : any) :
  _validate_configuration c = Return tt →
  ∃ ds : list (gmap string any),
    c = ADict {[ Key.DEVICES := AList (ADict <$> ds) ]}
    ∧ ds ≠ [] ∧ Forall (fun d => ¬ device_violation d) ds.
Proof.
  unfold _validate_configuration.
  destruct c as [ | b | z | s | l | m]; try discriminate.
  - unfold not_in; simpl. destruct (str_contains Key.DEVICES s); discriminate.
  - unfold not_in; simpl.
    destruct (existsb (eq_str Key.DEVICES) l); discriminate.
  - rewrite not_in_dict. simpl.
    destruct (m !! Key.DEVICES) as [v|] eqn:Hv; simpl; [ | discriminate].
    destruct (Nat.eqb_spec (size m) 1) as [Hs|Hs]; simpl; [ | discriminate].
    destruct (truthy v) eqn:Ht; simpl; [ | discriminate].
    intros H.
    destruct (py_iter v) as [items|e] eqn:Hi; simpl in H; [ | discriminate].
    destruct (validate_devices_Return_dicts items H) as (ds & -> & Hds).
    destruct v as [ | b | z | s | l | d]; simpl in Hi; try discriminate.
    + (* a str: its characters are no dicts *)
      destruct s as [ | a s]; [discriminate | ].
      simpl in Hi. destruct ds; simpl in Hi; congruence.
    + (* a list *)
      injection Hi as ->. exists ds. split; [ | split; [ | done]].
      * by rewrite (size_1_singleton m Key.DEVICES _ Hv Hs).
      * intros ->. discriminate.
    + (* a dict: its keys are no dicts *)
      simpl in Ht. apply negb_true_iff, bool_decide_eq_false in Ht.
      rewrite <- length_map_to_list in Ht.
      destruct (map_to_list d) as [ | [k x] kvs]; [done | ].
      simpl in Hi. destruct ds; simpl in Hi; congruence.
Qed.

Lemma lookup_Some_size (m : gmap string any) (k : string) (v : any) :
  m !! k = Some v → size m ≠ 0.
Proof.
  intros Hk Hs. apply map_size_empty_inv in Hs. subst m.
  rewrite lookup_empty in Hk. discriminate.
Qed.

(** What validation answers on a [dict] whose [devices] entry, when there is
    one, is a list of [dict] records. *)
Lemma validate_configuration_shaped (m : gmap string any)
    (ods : option (list (gmap string any))) :
  m !! Key.DEVICES = (fun ds => AList (ADict <$> ds)) <$> ods →
  _validate_configuration (ADict m) =
  match ods with
  | None => invalid MissingConfigurationKey
  | Some ds =>
      if negb (Nat.eqb (size m) 1)
      then invalid (ExpectedOneConfigurationKey (size m))
      else match ds with
           | [] => invalid ConfigurationDataMissing
           | _ :: _ => validate_devices (ADict <$> ds)
           end
  end.
Proof.
  intros Hm. unfold _validate_configuration.
  rewrite not_in_dict, Hm. simpl.
  destruct ods as [ds|]; simpl; [ | reflexivity].
  destruct (negb (size m =? 1)%nat); [reflexivity | ].
  rewrite Hm. simpl. destruct ds; reflexivity.
Qed.

(** C4.  On every configuration (a mapping whose [devices] entry, when
    present, is a sequence of device records) validation raises
    [INVALID_CONFIGURATION] exactly when the mapping lacks [devices], or has
    more than one key, or the sequence is empty, or some record violates a
    device rule; otherwise it accepts.  The top level is checked first, in
    the order key, key count, emptiness; then the records are scanned in
    order and the error raised is the one of the first violating record. *)
Theorem validate_configuration_rejects_exactly (m : gmap string any)
    (ods : option (list (gmap string any))) :
  m !! Key.DEVICES = (fun ds => AList (ADict <$> ds)) <$> ods →
  (rejected (_validate_configuration (ADict m))
   ↔ (m !! Key.DEVICES = None ∨ 1 < size m ∨ ods = Some []
      ∨ ∃ ds, ods = Some ds ∧ Exists device_violation ds))
  ∧ (¬ rejected (_validate_configuration (ADict m))
     → _validate_configuration (ADict m) = Return tt)
  ∧ (m !! Key.DEVICES = None
     → _validate_configuration (ADict m) = invalid MissingConfigurationKey)
  ∧ (m !! Key.DEVICES ≠ None → 1 < size m
     → _validate_configuration (ADict m)
       = invalid (ExpectedOneConfigurationKey (size m)))
  ∧ (size m = 1 → ods = Some []
     → _validate_configuration (ADict m) = invalid ConfigurationDataMissing)
  ∧ (∀ pre d post,
       size m = 1 → ods = Some (pre ++ d :: post)
       → Forall (fun d => ¬ device_violation d) pre → device_violation d
       → _validate_configuration (ADict m)
         = _validate_device_configuration (ADict d)
         ∧ rejected (_validate_device_configuration (ADict d))).
Proof.
  intros Hm. pose proof (validate_configuration_shaped m ods Hm) as Hv.
  assert (ods = None ∨ ∃ ds, ods = Some ds ∧ size m ≠ 0) as Hcase.
  { destruct ods as [ds|]; [right | by left].
    exists ds. split; [done | ]. by eapply lookup_Some_size. }
  split; [split | split; [ | split; [ | split; [ | split]]]].
  - (* rejected implies one of the conditions *)
    intros Hr. destruct Hcase as [-> | (ds & -> & Hne)]; [by left | ].
    right. rewrite Hv in Hr.
    destruct (Nat.eqb_spec (size m) 1) as [Hs|Hs]; simpl in Hr; [ | left; lia].
    right. destruct ds as [ | d ds]; [by left | right].
    exists (d :: ds). split; [done | ].
    destruct (validate_devices_dict (d :: ds)) as [[He _] | [_ Hok]]; [done | ].
    rewrite Hok in Hr. destruct Hr as [msg ?]; discriminate.
  - (* each condition implies rejected *)
    rewrite Hv. unfold rejected, invalid.
    intros [Hn | [Hgt | [-> | (ds & -> & He)]]].
    + destruct ods; [rewrite Hm in Hn; discriminate | eauto].
    + destruct ods as [ds|]; [ | eauto].
      destruct (Nat.eqb_spec (size m) 1); [lia | simpl; eauto].
    + destruct (negb _); eauto.
    + destruct (negb _); [eauto | ].
      destruct (validate_devices_dict ds) as [[_ Hr] | [Hf _]].
      * destruct ds; [by apply Exists_nil in He | exact Hr].
      * exfalso. apply Exists_exists in He as (d & Hd & Hbad).
        rewrite Forall_forall in Hf. by apply (Hf d).
  - (* not rejected: accepted *)
    rewrite Hv. unfold rejected, invalid. intros Hn.
    destruct ods as [ds|]; [ | exfalso; eauto].
    destruct (negb _); [exfalso; eauto | ].
    destruct ds as [ | d ds]; [exfalso; eauto | ].
    destruct (validate_devices_dict (d :: ds)) as [[_ Hr] | [_ Hok]]; done.
  - intros Hn. rewrite Hv.
    destruct ods; [rewrite Hm in Hn; discriminate | reflexivity].
  - intros Hn Hgt. rewrite Hv. destruct ods; [ | done].
    destruct (Nat.eqb_spec (size m) 1); [lia | reflexivity].
  - intros Hs ->. rewrite Hv, Hs. reflexivity.
  - intros pre d post Hs -> Hpre Hd.
    split; [ | by apply validate_device_rejects].
    rewrite Hv, Hs. simpl.
    rewrite <- (validate_devices_first pre post d Hpre Hd).
    destruct pre; reflexivity.
Qed.

(* ===================================================================== *)
(** ** configure and start without a configuration *)
(* ===================================================================== *)

(** Unfolds the plumbing of coroutines. *)
Ltac run :=
  unfold update, deref, emit, modify, get, raise, lift, _callback,
    mbind, M_bind, mret, M_ret; simpl.

(** C5.  [configure] is all or nothing.  When it fails the world, and with
    it the stored configuration, is exactly what it was: with
    [ALREADY_STARTED] when the handler is started, whatever the argument, and
    otherwise with the error of validation.  When it succeeds the handler was
    not started, the argument passed validation, and the argument replaces
    the stored configuration, nothing else changing. *)
Theorem configure_all_or_nothing (configuration : any) (w : world) :
  (∀ e w', configure configuration w = (Raise e, w') → w' = w)
  ∧ (_started (self w) = true →
     configure configuration w
     = (Raise (CommandError TelemetryLoopAlreadyRunning ALREADY_STARTED), w))
  ∧ (∀ e, _started (self w) = false →
          _validate_configuration configuration = Raise e →
          configure configuration w = (Raise e, w))
  ∧ (∀ w', configure configuration w = (Return tt, w') →
           _started (self w) = false
           ∧ _validate_configuration configuration = Return tt
           ∧ w' = set_self (set_configuration configuration) w
           ∧ _configuration (self w') = configuration).
Proof.
  unfold configure. run.
  destruct (_started (self w)); simpl;
    destruct (_validate_configuration configuration) as [[] | e0]; simpl;
    repeat split; intros; try congruence.
  - injection H as <-. reflexivity.
Qed.

Lemma dispatch_configure : dispatch_dict !! Command.CONFIGURE = Some Hconfigure.
Proof. reflexivity. Qed.

Lemma dispatch_start :
  dispatch_dict !! Command.START = Some Hstart_sending_telemetry.
Proof. reflexivity. Qed.

Lemma dispatch_stop :
  dispatch_dict !! Command.STOP = Some Hstop_sending_telemetry.
Proof. reflexivity. Qed.

(** [handle_command] on the three commands called with the right keywords. *)
Lemma handle_start (w : world) :
  handle_command Command.START ∅ w =
  match start_sending_telemetry w with
  | (Return _, w') => _callback (Response OK) w'
  | (Raise (CommandError _ response_code), w') =>
      _callback (Response response_code) w'
  | (Raise e, w') => (Raise e, w')
  end.
Proof. unfold handle_command. rewrite dispatch_start. reflexivity. Qed.

Lemma handle_stop (w : world) :
  handle_command Command.STOP ∅ w =
  match stop_sending_telemetry w with
  | (Return _, w') => _callback (Response OK) w'
  | (Raise (CommandError _ response_code), w') =>
      _callback (Response response_code) w'
  | (Raise e, w') => (Raise e, w')
  end.
Proof.
  unfold handle_command. rewrite dispatch_stop.
  unfold call. rewrite map_size_empty. simpl. unfold mbind, M_bind.
  destruct (stop_sending_telemetry w) as [[rc | e] w']; reflexivity.
Qed.

Lemma handle_configure (configuration : any) (w : world) :
  handle_command Command.CONFIGURE {[ "configuration" := configuration ]} w =
  match configure configuration w with
  | (Return _, w') => _callback (Response OK) w'
  | (Raise (CommandError _ response_code), w') =>
      _callback (Response response_code) w'
  | (Raise e, w') => (Raise e, w')
  end.
Proof. unfold handle_command. rewrite dispatch_configure. reflexivity. Qed.

(** C8.  With no stored configuration, [start_sending_telemetry] raises
    [NOT_CONFIGURED] and leaves the world as it was; through
    [handle_command] the sink receives [NOT_CONFIGURED] and nothing else
    changes: the handler is as before and no instrument was created. *)
Theorem start_not_configured (w : world) :
  _configuration (self w) = ANone →
  start_sending_telemetry w
  = (Raise (CommandError NoConfigurationReceived NOT_CONFIGURED), w)
  ∧ ∃ w', handle_command Command.START ∅ w = (Return tt, w')
          ∧ self w' = self w ∧ heap w' = heap w ∧ tasks w' = tasks w
          ∧ events w' = events w ++ [Callback (Response NOT_CONFIGURED)].
Proof.
  intros Hc.
  assert (start_sending_telemetry w
          = (Raise (CommandError NoConfigurationReceived NOT_CONFIGURED), w))
    as Hs.
  { unfold start_sending_telemetry. run. rewrite Hc. reflexivity. }
  split; [exact Hs | ].
  rewrite handle_start, Hs. run. eauto 10.
Qed.

(* ===================================================================== *)
(** ** EssInstrument.stop *)
(* ===================================================================== *)

Lemma set_enabled_idle (o : EssInstrument) :
  _enabled o = false → set_enabled false o = o.
Proof. destruct o; simpl; intros ->; reflexivity. Qed.

(** C7, as the code has it.  On a running instrument [stop] asks the task of
    the read loop to cancel and then stops the reader, with nothing in
    between: the task is not awaited.  The instrument ends not enabled.  On
    an instrument that is not enabled [stop] changes nothing: no task is
    cancelled and no reader stopped. *)
Theorem stop_cancels_then_stops_reader (w : world) (ref : nat)
    (o : EssInstrument) :
  heap w !! ref = Some o →
  (∀ task, _enabled o = true → telemetry_loop o = Some task →
     ∃ w', stop ref w = (Return tt, w')
           ∧ events w' = events w ++ [TaskCancel task; ReaderStop ref]
           ∧ heap w' = <[ref := set_enabled false o]> (heap w)
           ∧ self w' = self w ∧ tasks w' = tasks w)
  ∧ (_enabled o = false → stop ref w = (Return tt, w)).
Proof.
  intros Ho. split.
  - intros task He Ht. unfold stop. run. rewrite Ho, He, Ht. simpl.
    rewrite Ho. eexists. split; [reflexivity | ]. simpl.
    rewrite <- app_assoc. done.
  - intros He. unfold stop. run. rewrite Ho, He. simpl. rewrite Ho.
    unfold set_heap. simpl. rewrite (set_enabled_idle o He).
    rewrite list_insert_id by done. destruct w; reflexivity.
Qed.

(* ===================================================================== *)
(** ** Device resolution and connect_devices *)
(* ===================================================================== *)

(** [_get_device] reads two attributes of the handler only. *)
Lemma get_device_ext (h h' : CommandHandler) (host : string) (dc : any) :
  simulation_mode h = simulation_mode h' →
  disconnected_channel h = disconnected_channel h' →
  _get_device h host dc = _get_device h' host dc.
Proof. unfold _get_device. intros -> ->. reflexivity. Qed.

Lemma resolves_ext (h h' : CommandHandler) (host : string) (dc : any) :
  simulation_mode h = simulation_mode h' →
  disconnected_channel h = disconnected_channel h' →
  resolves h host dc = resolves h' host dc.
Proof.
  intros H1 H2. unfold resolves. by rewrite (get_device_ext h h' host dc H1 H2).
Qed.

Lemma forallb_resolves_ext (h h' : CommandHandler) (host : string)
    (items : list any) :
  simulation_mode h = simulation_mode h' →
  disconnected_channel h = disconnected_channel h' →
  forallb (resolves h host) items = forallb (resolves h' host) items.
Proof.
  intros H1 H2. induction items as [ | x items IH]; simpl; [reflexivity | ].
  by rewrite IH, (resolves_ext h h' host x H1 H2).
Qed.

(** The fields of a validated record. *)
Lemma validated_fields (dc : any) :
  validated dc →
  ∃ (d : gmap string any) (nm ch : any) (t : string),
    dc = ADict d
    ∧ d !! Key.NAME = Some nm ∧ d !! Key.CHANNELS = Some ch
    ∧ d !! Key.TYPE = Some (AStr t)
    ∧ ((t = DeviceType.FTDI ∧ is_Some (d !! Key.FTDI_ID))
       ∨ (t = DeviceType.SERIAL ∧ is_Some (d !! Key.SERIAL_PORT))).
Proof.
  intros Hv. destruct (validate_device_Return_dict dc Hv) as [d ->].
  apply validate_device_accepts in Hv. unfold device_violation in Hv.
  destruct (d !! Key.NAME) as [nm|] eqn:En; [ | tauto].
  destruct (d !! Key.CHANNELS) as [ch|] eqn:Ec; [ | tauto].
  destruct (d !! Key.TYPE) as [t|] eqn:Et; [ | tauto].
  destruct (eq_str DeviceType.FTDI t) eqn:Ef.
  - apply eq_str_true in Ef; subst t.
    exists d, nm, ch, DeviceType.FTDI. repeat split; try done.
    left. split; [done | ].
    destruct (d !! Key.FTDI_ID); [eauto | tauto].
  - destruct (eq_str DeviceType.SERIAL t) eqn:Es.
    + apply eq_str_true in Es; subst t.
      exists d, nm, ch, DeviceType.SERIAL. repeat split; try done.
      right. split; [done | ].
      destruct (d !! Key.SERIAL_PORT); [eauto | tauto].
    + apply eq_str_false in Ef, Es. exfalso. apply Hv.
      do 3 right. left. eauto.
Qed.

(** The selection policy on a validated record. *)
Lemma get_device_validated (h : CommandHandler) (host : string) (dc : any) :
  validated dc →
  ∃ nm ch t,
    py_getitem dc Key.NAME = Return nm
    ∧ py_getitem dc Key.CHANNELS = Return ch
    ∧ py_getitem dc Key.TYPE = Return (AStr t)
    ∧ (t = DeviceType.FTDI ∨ t = DeviceType.SERIAL)
    ∧ (simulation_mode h = 1%Z →
       _get_device h host dc
       = Return (MockTemperatureSensor nm ch (disconnected_channel h)))
    ∧ (simulation_mode h ≠ 1%Z → t = DeviceType.FTDI →
       ∃ id, py_getitem dc Key.FTDI_ID = Return id
             ∧ _get_device h host dc = Return (VcpFtdi nm id))
    ∧ (simulation_mode h ≠ 1%Z → t = DeviceType.SERIAL →
       str_contains "aarch64" host = true →
       ∃ port, py_getitem dc Key.SERIAL_PORT = Return port
               ∧ _get_device h host dc = Return (RpiSerialHat nm port))
    ∧ (simulation_mode h ≠ 1%Z → t = DeviceType.SERIAL →
       str_contains "aarch64" host = false →
       _get_device h host dc = Raise RuntimeError).
Proof.
  intros Hv.
  destruct (validated_fields dc Hv) as (d & nm & ch & t & -> & Hn & Hc & Ht & Hk).
  exists nm, ch, t. unfold _get_device, py_getitem.
  rewrite Hn, Hc, Ht. simpl.
  split; [done | ]. split; [done | ]. split; [done | ].
  split; [tauto | ].
  split; [ | split; [ | split]].
  - intros ->. reflexivity.
  - intros Hs ->. apply Z.eqb_neq in Hs. rewrite Hs.
    destruct Hk as [[_ [id Hid]] | [? _]]; [ | discriminate].
    exists id. rewrite Hid. split; reflexivity.
  - intros Hs -> Ha. apply Z.eqb_neq in Hs. rewrite Hs.
    destruct Hk as [[? _] | [_ [port Hp]]]; [discriminate | ].
    exists port. rewrite Hp, Ha. split; reflexivity.
  - intros Hs -> Ha. apply Z.eqb_neq in Hs. rewrite Hs, Ha.
    change (d !! "type") with (d !! Key.TYPE). rewrite Ht. reflexivity.
Qed.

(** On a validated record resolution either produces a device or fails with
    [RuntimeError]. *)
Lemma get_device_outcome (h : CommandHandler) (host : string) (dc : any) :
  validated dc →
  (∃ dev, _get_device h host dc = Return dev)
  ∨ _get_device h host dc = Raise RuntimeError.
Proof.
  intros Hv.
  destruct (get_device_validated h host dc Hv)
    as (nm & ch & t & _ & _ & _ & Ht & Hsim & Hftdi & Hser & Hno).
  destruct (decide (simulation_mode h = 1%Z)) as [H1|H1]; [left; eauto | ].
  destruct Ht as [-> | ->].
  - destruct (Hftdi H1 eq_refl) as (id & _ & ->). eauto.
  - destruct (str_contains "aarch64" host) eqn:Ha.
    + destruct (Hser H1 eq_refl eq_refl) as (port & _ & ->). eauto.
    + right. by apply Hno.
Qed.

(** One pass of the loop of [connect_devices]. *)
Lemma connect_device_resolved (dc : any) (w : world) (dev : device)
    (nm ch : any) :
  _get_device (self w) (platform w) dc = Return dev →
  py_getitem dc Key.NAME = Return nm →
  py_getitem dc Key.CHANNELS = Return ch →
  connect_device dc w = (Return tt, connected dev nm ch w).
Proof.
  intros Hd Hn Hc.
  unfold connect_device, EssInstrument_new, start, ensure_future. run.
  rewrite Hd, Hn, Hc. simpl.
  rewrite list_lookup_middle by reflexivity. simpl.
  rewrite insert_app_r_alt, Nat.sub_diag by reflexivity. simpl.
  rewrite list_lookup_middle by reflexivity. simpl.
  unfold set_heap. simpl.
  rewrite insert_app_r_alt, Nat.sub_diag by reflexivity. reflexivity.
Qed.

Lemma connect_device_fails (dc : any) (w : world) (e : exn) :
  _get_device (self w) (platform w) dc = Raise e →
  connect_device dc w = (Raise e, w).
Proof. intros Hd. unfold connect_device. run. rewrite Hd. reflexivity. Qed.

Lemma started_instruments_refl (w : world) : started_instruments 0 w w.
Proof.
  unfold started_instruments. simpl. rewrite !app_nil_r, Nat.add_0_r.
  repeat split; try done. exists []. by rewrite app_nil_r.
Qed.

Lemma started_instruments_connected (dev : device) (nm ch : any) (n : nat)
    (w w' : world) :
  started_instruments n (connected dev nm ch w) w' →
  started_instruments (S n) w w'.
Proof.
  unfold started_instruments, connected. simpl.
  intros (Hl & (new & Hh & Hlen & Hrun) & He & Ht & Hp & Hs & Hd & Hc & Hst).
  rewrite length_app in *. simpl in *.
  repeat split; try done.
  - rewrite Hl, <- app_assoc. simpl. do 3 f_equal. lia.
  - eexists (_ :: new). rewrite Hh, <- app_assoc. simpl.
    split; [reflexivity | ]. split; [by rewrite Hlen | ].
    constructor; [ | done]. unfold running; simpl; eauto.
  - rewrite He, <- app_assoc. simpl. rewrite !Nat.add_0_r. do 2 f_equal.
    rewrite <- fmap_S_seq, <- list_fmap_compose. apply list_fmap_ext.
    intros i x _. simpl. f_equal; lia.
  - lia.
Qed.

(** The loop of [connect_devices] on validated records that all resolve:
    one running instrument per record, in order. *)
Lemma connect_loop_resolved (items : list any) (w : world) :
  Forall validated items →
  forallb (resolves (self w) (platform w)) items = true →
  ∃ w', connect_loop items w = (Return tt, w')
        ∧ started_instruments (length items) w w'.
Proof.
  intros Hv. revert w. induction Hv as [ | dc items Hdc _ IH]; intros w Hr.
  - exists w. split; [reflexivity | apply started_instruments_refl].
  - simpl in Hr. apply andb_true_iff in Hr as [Hr1 Hr2].
    unfold resolves in Hr1.
    destruct (_get_device (self w) (platform w) dc) as [dev|] eqn:Hd;
      [ | discriminate].
    destruct (get_device_validated (self w) (platform w) dc Hdc)
      as (nm & ch & t & Hn & Hc & _).
    destruct (IH (connected dev nm ch w)) as (w' & Hw' & Hst).
    { rewrite <- Hr2. by apply forallb_resolves_ext. }
    exists w'. split.
    + simpl. unfold mbind, M_bind.
      rewrite (connect_device_resolved dc w dev nm ch Hd Hn Hc). exact Hw'.
    + simpl. by eapply started_instruments_connected.
Qed.

Lemma connect_loop_app (l1 l2 : list any) (w : world) :
  connect_loop (l1 ++ l2) w =
  match connect_loop l1 w with
  | (Return _, w1) => connect_loop l2 w1
  | (Raise e, w1) => (Raise e, w1)
  end.
Proof.
  revert w. induction l1 as [ | x l1 IH]; intros w; simpl; [reflexivity | ].
  unfold mbind, M_bind. destruct (connect_device x w) as [[[] | e] w1]; auto.
Qed.

(** The loop when the record after [pre] does not resolve: the instruments of
    [pre] are running and stay, and the error leaves the loop. *)
Lemma connect_loop_fails (pre post : list any) (dc : any) (e : exn)
    (w : world) :
  Forall validated pre →
  forallb (resolves (self w) (platform w)) pre = true →
  _get_device (self w) (platform w) dc = Raise e →
  ∃ w', connect_loop (pre ++ dc :: post) w = (Raise e, w')
        ∧ started_instruments (length pre) w w'.
Proof.
  intros Hv Hr Hd.
  destruct (connect_loop_resolved pre w Hv Hr) as (w' & Hw' & Hst).
  exists w'. split; [ | exact Hst].
  rewrite connect_loop_app, Hw'. simpl. unfold mbind, M_bind.
  rewrite (connect_device_fails dc w' e); [reflexivity | ].
  destruct Hst as (_ & _ & _ & _ & Hp & Hs & Hdis & _).
  rewrite Hp, <- Hd. by apply get_device_ext.
Qed.

(** [start_sending_telemetry] on a stored configuration of the validated
    shape. *)
Lemma start_unfold (items : list any) (w : world) :
  _configuration (self w) = ADict {[ Key.DEVICES := AList items ]} →
  start_sending_telemetry w =
  match connect_loop items w with
  | (Return _, w1) => (Return tt, set_self (set_started true) w1)
  | (Raise e, w1) => (Raise e, w1)
  end.
Proof.
  intros Hc. unfold start_sending_telemetry, connect_devices. run.
  rewrite Hc. simpl. rewrite map_size_singleton. simpl.
  rewrite Hc. unfold py_getitem. rewrite lookup_singleton_eq. simpl.
  destruct (connect_loop items w) as [[[] | e] w1]; reflexivity.
Qed.

Lemma validated_configuration_items (c : any) :
  _validate_configuration c = Return tt →
  c = ADict {[ Key.DEVICES := AList (devices_of c) ]}
  ∧ devices_of c ≠ [] ∧ Forall validated (devices_of c).
Proof.
  intros Hv. destruct (validated_shape c Hv) as (ds & -> & Hne & Hds).
  clear Hv. unfold devices_of. rewrite lookup_singleton_eq.
  split; [reflexivity | ]. split.
  - intros H. apply fmap_nil_inv in H. contradiction.
  - apply Forall_fmap. eapply Forall_impl; [exact Hds | ].
    intros d Hd. apply validate_device_accepts. exact Hd.
Qed.

(* ===================================================================== *)
(** ** What the handlers leave behind *)
(* ===================================================================== *)

Lemma callbacks_app (es es' : list event) :
  callbacks (es ++ es') = callbacks es ++ callbacks es'.
Proof.
  induction es as [ | e es IH]; simpl; [reflexivity | ].
  destruct e; simpl; by rewrite IH.
Qed.

Lemma quiet_refl (w : world) : quiet w w.
Proof. unfold quiet. auto. Qed.

Lemma quiet_trans (w1 w2 w3 : world) : quiet w1 w2 → quiet w2 w3 → quiet w1 w3.
Proof.
  unfold quiet. intros (A1 & A2 & A3 & A4 & A5) (B1 & B2 & B3 & B4 & B5).
  repeat split; try congruence; [auto | lia].
Qed.

Lemma quiet_refs_ok (w w' : world) : quiet w w' → refs_ok w → refs_ok w'.
Proof.
  unfold quiet, refs_ok. intros (_ & Hl & _ & Hin & _). rewrite !Forall_forall.
  intros H ref Hr. rewrite Hl. auto.
Qed.

(** [EssInstrument.stop], case by case. *)
Lemma stop_cases (ref : nat) (w : world) :
  ∃ r w', stop ref w = (r, w')
    ∧ self w' = self w
    ∧ quiet w w'
    ∧ r ≠ Raise OutOfFuel
    ∧ (ref < length (heap w) → r ≠ Raise SystemError).
Proof.
  unfold stop. run.
  destruct (heap w !! ref) as [o|] eqn:Ho.
  - destruct (_enabled o); [destruct (telemetry_loop o) as [task|] | ]; simpl;
      rewrite ?Ho; simpl; eexists _, _;
      (split; [reflexivity | ]); (split; [reflexivity | ]);
      (split; [unfold quiet; simpl;
               rewrite ?callbacks_app, ?length_insert; simpl;
               rewrite ?app_nil_r; auto 10 | ]);
      (split; [ | intros _]); discriminate.
  - eexists _, _. split; [reflexivity | ]. split; [reflexivity | ].
    split; [apply quiet_refl | ]. split; [discriminate | ].
    apply lookup_ge_None in Ho. intros Hlt. lia.
Qed.

Lemma list_remove_Some (x : nat) (l l' : list nat) :
  list_remove x l = Some l' →
  length l = S (length l') ∧ ∀ y, y ∈ l' → y ∈ l.
Proof.
  revert l'. induction l as [ | y l IH]; simpl; intros l' H; [discriminate | ].
  destruct (Nat.eqb x y).
  - injection H as <-. split; [reflexivity | ]. intros z Hz. by right.
  - destruct (list_remove x l) as [l0|]; [ | discriminate].
    injection H as <-. destruct (IH l0 eq_refl) as [Hlen Hin].
    split; [simpl; lia | ]. intros z Hz. apply elem_of_cons in Hz as [-> | Hz].
    + by left.
    + right. auto.
Qed.

Lemma list_remove_elem (x : nat) (l : list nat) :
  x ∈ l → is_Some (list_remove x l).
Proof.
  induction l as [ | y l IH]; intros Hx; [by apply elem_of_nil in Hx | ].
  simpl. destruct (Nat.eqb_spec x y) as [ | Hne]; [eauto | ].
  apply elem_of_cons in Hx as [ | Hx]; [done | ].
  destruct (IH Hx) as [l' ->]. simpl. eauto.
Qed.

(** [list.remove] of an item the list holds shortens the list by one. *)
Lemma remove_instrument_held (ref : nat) (w : world) :
  ref ∈ _ess_instruments (self w) →
  ∃ w', remove_instrument ref w = (Return tt, w')
    ∧ quiet w w'
    ∧ S (length (_ess_instruments (self w')))
      = length (_ess_instruments (self w)).
Proof.
  intros Hin. unfold remove_instrument. run.
  destruct (list_remove_elem _ _ Hin) as [l' Hl']. rewrite Hl'.
  destruct (list_remove_Some _ _ _ Hl') as [Hlen Hsub].
  eexists. split; [reflexivity | ]. unfold quiet. simpl.
  repeat split; auto; lia.
Qed.

(** The loop of [stop_sending_telemetry] ends within its bound, tells the
    sink nothing and creates no object. *)
Lemma stop_loop_quiet (fuel index : nat) (w : world) :
  (length (_ess_instruments (self w)) - index ≤ fuel)%nat →
  ∃ r w', stop_loop fuel index w = (r, w')
    ∧ quiet w w'
    ∧ r ≠ Raise OutOfFuel
    ∧ (refs_ok w → r ≠ Raise SystemError).
Proof.
  revert index w. induction fuel as [ | fuel IH]; intros index w Hf.
  - simpl. destruct (_ess_instruments (self w) !! index) as [ref|] eqn:Hi.
    + apply lookup_lt_Some in Hi. lia.
    + eexists _, _. split; [reflexivity | ].
      split; [apply quiet_refl | ]. split; [ | intros _]; discriminate.
  - simpl. destruct (_ess_instruments (self w) !! index) as [ref|] eqn:Hi.
    + pose proof (lookup_lt_Some _ _ _ Hi) as Hlt.
      assert (ref ∈ _ess_instruments (self w)) as Hin
        by (apply list_elem_of_lookup; eauto).
      destruct (stop_cases ref w) as (r1 & w1 & Hs & Hself & Hq1 & Hno1 & Hsys1).
      unfold mbind, M_bind. rewrite Hs.
      destruct r1 as [[] | e1].
      * destruct (remove_instrument_held ref w1) as (w2 & Hr & Hq2 & Hlen);
          [by rewrite Hself | ].
        rewrite Hr. rewrite Hself in Hlen.
        destruct (IH (S index) w2) as (r & w' & Hl & Hq3 & Hno & Hsys); [lia | ].
        exists r, w'. split; [exact Hl | ].
        split; [eauto using quiet_trans | ]. split; [exact Hno | ].
        intros Hok. apply Hsys. eauto using quiet_refs_ok.
      * exists (Raise e1), w1. split; [reflexivity | ].
        split; [exact Hq1 | ]. split; [exact Hno1 | ].
        intros Hok. apply Hsys1. unfold refs_ok in Hok.
        rewrite Forall_forall in Hok. auto.
    + eexists _, _. split; [reflexivity | ].
      split; [apply quiet_refl | ]. split; [ | intros _]; discriminate.
Qed.

(** [stop_sending_telemetry] always comes back: its loop never outlives the
    bound it is given. *)
Lemma stop_sending_telemetry_total (w : world) :
  ∃ r w', stop_sending_telemetry w = (r, w')
    ∧ quiet w w'
    ∧ r ≠ Raise OutOfFuel
    ∧ (refs_ok w → r ≠ Raise SystemError).
Proof.
  unfold stop_sending_telemetry. run.
  destruct (_started (self w)); simpl.
  - set (w0 := set_self (set_started false) w).
    destruct (stop_loop_quiet (length (_ess_instruments (self w))) 0 w0)
      as (r & w' & Hl & Hq & Hno & Hsys); [simpl; lia | ].
    rewrite Hl. destruct r as [[] | e]; eexists _, _;
      (split; [reflexivity | ]); (split; [exact Hq | ]);
      (split; [congruence | ]); intros Hok; try discriminate.
    intros He. apply (Hsys Hok). congruence.
  - eexists _, _. split; [reflexivity | ].
    split; [apply quiet_refl | ]. split; [ | intros _]; discriminate.
Qed.

(* ===================================================================== *)
(** ** Soundness of the model: no exception of its own *)
(* ===================================================================== *)

Lemma pure_python_Return {A} (a : A) : pure_python (Return a).
Proof. intros e H; discriminate. Qed.

Lemma pure_python_bind {A B} (r : result A) (k : A → result B) :
  pure_python r → (∀ a, pure_python (k a)) → pure_python (r ≫= k).
Proof.
  intros Hr Hk e. destruct r as [a|e0]; simpl; [apply Hk | ].
  intros H. injection H as <-. by apply Hr.
Qed.

Lemma pure_python_invalid {A} (msg : message) : pure_python (@invalid A msg).
Proof. intros e H. injection H as <-. split; discriminate. Qed.

Lemma pure_python_RuntimeError {A} : pure_python (@Raise A RuntimeError).
Proof. intros e H. injection H as <-. split; discriminate. Qed.

Lemma pure_python_getitem (v : any) (k : string) : pure_python (py_getitem v k).
Proof.
  intros e. unfold py_getitem.
  destruct v; try (intros H; injection H as <-; split; discriminate).
  destruct (d !! k); intros H; [discriminate | ].
  injection H as <-; split; discriminate.
Qed.

Lemma pure_python_not_in (k : string) (v : any) : pure_python (not_in k v).
Proof.
  intros e. unfold not_in, py_in.
  destruct v; simpl; intros H; try discriminate;
    injection H as <-; split; discriminate.
Qed.

Lemma pure_python_len_keys (v : any) : pure_python (py_len_keys v).
Proof.
  intros e. destruct v; simpl; intros H; try discriminate;
    injection H as <-; split; discriminate.
Qed.

Lemma pure_python_iter (v : any) : pure_python (py_iter v).
Proof.
  intros e. destruct v; simpl; intros H; try discriminate;
    injection H as <-; split; discriminate.
Qed.

(** Closes a goal [pure_python r] when [r] is built from the operations
    above. *)
Ltac python :=
  repeat first
    [ apply pure_python_Return
    | apply pure_python_invalid
    | apply pure_python_RuntimeError
    | apply pure_python_getitem
    | apply pure_python_not_in
    | apply pure_python_len_keys
    | apply pure_python_iter
    | apply pure_python_bind; [ | intros ? ]
    | match goal with
      | |- pure_python (if ?b then _ else _) => destruct b
      | |- pure_python (match ?x with _ => _ end) => destruct x
      end ].

Lemma pure_python_validate_device (dc : any) :
  pure_python (_validate_device_configuration dc).
Proof. unfold _validate_device_configuration, py_or. python. Qed.

Lemma pure_python_validate_devices (items : list any) :
  pure_python (validate_devices items).
Proof.
  induction items as [ | dc items IH]; simpl; [python | ].
  apply pure_python_bind; [apply pure_python_validate_device | auto].
Qed.

Lemma pure_python_validate (c : any) : pure_python (_validate_configuration c).
Proof.
  unfold _validate_configuration. python. apply pure_python_validate_devices.
Qed.

Lemma pure_python_get_device (h : CommandHandler) (host : string) (dc : any) :
  pure_python (_get_device h host dc).
Proof. unfold _get_device. python. Qed.

(** One pass of the loop of [connect_devices]: it fails before it changes
    anything, or it leaves one more running instrument. *)
Lemma connect_device_cases (dc : any) (w : world) :
  (∃ e, connect_device dc w = (Raise e, w) ∧ python_exn e)
  ∨ (∃ dev nm ch, connect_device dc w = (Return tt, connected dev nm ch w)).
Proof.
  destruct (_get_device (self w) (platform w) dc) as [dev|e] eqn:Hd.
  - destruct (py_getitem dc Key.NAME) as [nm|e] eqn:Hn.
    + destruct (py_getitem dc Key.CHANNELS) as [ch|e] eqn:Hc.
      * right. exists dev, nm, ch. by apply connect_device_resolved.
      * left. exists e. split; [ | by eapply pure_python_getitem].
        unfold connect_device. run. rewrite Hd, Hn, Hc. reflexivity.
    + left. exists e. split; [ | by eapply pure_python_getitem].
      unfold connect_device. run. rewrite Hd, Hn. reflexivity.
  - left. exists e. split; [ | by eapply pure_python_get_device].
    by apply connect_device_fails.
Qed.

Lemma connected_sound (dev : device) (nm ch : any) (w : world) :
  callbacks (events (connected dev nm ch w)) = callbacks (events w)
  ∧ (refs_ok w → refs_ok (connected dev nm ch w)).
Proof.
  unfold connected, refs_ok. simpl. rewrite callbacks_app. simpl.
  rewrite app_nil_r. split; [reflexivity | ].
  intros Hok. rewrite length_app. simpl. apply Forall_app. split.
  - eapply Forall_impl; [exact Hok | ]. simpl. intros; lia.
  - constructor; [lia | constructor].
Qed.

Lemma connect_loop_sound (items : list any) (w : world) :
  ∃ r w', connect_loop items w = (r, w')
    ∧ callbacks (events w') = callbacks (events w)
    ∧ (refs_ok w → refs_ok w')
    ∧ (∀ e, r = Raise e → python_exn e).
Proof.
  revert w. induction items as [ | dc items IH]; intros w.
  - exists (Return tt), w. simpl.
    split; [reflexivity | ]. split; [reflexivity | ]. split; [auto | ].
    intros e H; discriminate.
  - simpl. unfold mbind, M_bind.
    destruct (connect_device_cases dc w) as [(e & -> & He) | (dev & nm & ch & ->)].
    + exists (Raise e), w.
      split; [reflexivity | ]. split; [reflexivity | ]. split; [auto | ].
      intros e' H. by injection H as <-.
    + destruct (IH (connected dev nm ch w)) as (r & w' & -> & Hcb & Hok & Hr).
      destruct (connected_sound dev nm ch w) as [Hcb' Hok'].
      exists r, w'.
      split; [reflexivity | ]. split; [congruence | ]. split; [auto | exact Hr].
Qed.

(** Closes the goals about what a coroutine leaves behind. *)
Ltac sound_end :=
  split; [try reflexivity; auto
         | split; [auto | split; [intros _; congruence | congruence]]].

(** Every coroutine of [dispatch_dict], called with any keywords: the sink
    hears nothing from it, the references it leaves are sound, and it never
    raises an exception of the model. *)
Lemma call_sound (func : handler) (kwargs : gmap string any) (w : world) :
  ∃ r w1, call func kwargs w = (r, w1)
    ∧ callbacks (events w1) = callbacks (events w)
    ∧ (refs_ok w → refs_ok w1)
    ∧ (refs_ok w → r ≠ Raise SystemError)
    ∧ r ≠ Raise OutOfFuel.
Proof.
  destruct func; unfold call.
  - (* configure *)
    destruct (kwargs !! "configuration") as [c|];
      [destruct (Nat.eqb (size kwargs) 1) | ];
      try (eexists _, _; split; [reflexivity | sound_end]).
    unfold configure. run.
    destruct (_started (self w)); simpl.
    + eexists _, _. split; [reflexivity | sound_end].
    + destruct (_validate_configuration c) as [[] | e] eqn:Hv; simpl.
      * clear Hv. eexists _, _. split; [reflexivity | sound_end].
      * apply pure_python_validate in Hv as [? ?].
        eexists _, _. split; [reflexivity | sound_end].
  - (* start_sending_telemetry *)
    destruct (Nat.eqb (size kwargs) 0);
      [ | eexists _, _; split; [reflexivity | sound_end]].
    unfold start_sending_telemetry, connect_devices. run.
    destruct (truthy (_configuration (self w))); simpl;
      [ | eexists _, _; split; [reflexivity | sound_end]].
    destruct (py_getitem (_configuration (self w)) Key.DEVICES)
      as [v|e] eqn:Hg; simpl.
    + destruct (py_iter v) as [items|e] eqn:Hi; simpl.
      * destruct (connect_loop_sound items w) as (r & w' & -> & Hcb & Hok & Hr).
        destruct r as [[] | e].
        -- eexists _, _. split; [reflexivity | ]. simpl. sound_end.
        -- destruct (Hr e eq_refl).
           eexists _, _. split; [reflexivity | sound_end].
      * apply pure_python_iter in Hi as [? ?].
        eexists _, _. split; [reflexivity | sound_end].
    + apply pure_python_getitem in Hg as [? ?].
      eexists _, _. split; [reflexivity | sound_end].
  - (* stop_sending_telemetry *)
    destruct (Nat.eqb (size kwargs) 0);
      [ | eexists _, _; split; [reflexivity | sound_end]].
    destruct (stop_sending_telemetry_total w) as (r & w' & Hs & Hq & Hno & Hsys).
    unfold mbind, M_bind. rewrite Hs.
    pose proof (quiet_refs_ok w w' Hq) as Hok. destruct Hq as [Hcb _].
    destruct r as [rc | e]; eexists _, _; (split; [reflexivity | ]).
    + sound_end.
    + split; [exact Hcb | ]. split; [exact Hok | ]. split.
      * intros Hr He. apply (Hsys Hr). congruence.
      * intros He. apply Hno. congruence.
Qed.

(* ===================================================================== *)
(** ** handle_command and start_sending_telemetry *)
(* ===================================================================== *)

Lemma recognized_dispatch (command : string) :
  command = Command.CONFIGURE ∨ command = Command.START
  ∨ command = Command.STOP →
  ∃ func, dispatch_dict !! command = Some func.
Proof. intros [-> | [-> | ->]]; eexists; reflexivity. Qed.

(** C2, as the code has it.  On a recognized command, whatever the keywords,
    [handle_command] calls the sink at most once, and the coroutine it
    dispatches to never calls it: exactly once with [OK] when the coroutine
    returns, exactly once with the carried code when it raises a
    [CommandError], and not at all when it raises anything else, which then
    leaves [handle_command] as it is. *)
Theorem handle_command_replies (command : string) (kwargs : gmap string any)
    (w : world) :
  command = Command.CONFIGURE ∨ command = Command.START
  ∨ command = Command.STOP →
  ∃ func r w1,
    dispatch_dict !! command = Some func
    ∧ call func kwargs w = (r, w1)
    ∧ callbacks (events w1) = callbacks (events w)
    ∧ match r with
      | Return _ =>
          ∃ w', handle_command command kwargs w = (Return tt, w')
                ∧ callbacks (events w')
                  = callbacks (events w) ++ [Response OK]
      | Raise (CommandError _ code) =>
          ∃ w', handle_command command kwargs w = (Return tt, w')
                ∧ callbacks (events w')
                  = callbacks (events w) ++ [Response code]
      | Raise e => handle_command command kwargs w = (Raise e, w1)
      end.
Proof.
  intros Hc. destruct (recognized_dispatch command Hc) as [func Hf].
  destruct (call_sound func kwargs w) as (r & w1 & Hcall & Hcb & _).
  exists func, r, w1. split; [exact Hf | ]. split; [exact Hcall | ].
  split; [exact Hcb | ].
  unfold handle_command. rewrite Hf, Hcall.
  destruct r as [[] | e]; [ | destruct e]; try reflexivity;
    run; eexists; (split; [reflexivity | ]); simpl;
    by rewrite callbacks_app, Hcb.
Qed.

(** The model never fails on its own: from a world whose references are
    sound, [handle_command] leaves one, and raises neither [SystemError] nor
    [OutOfFuel]. *)
Lemma handle_command_sound (command : string) (kwargs : gmap string any)
    (w : world) :
  refs_ok w →
  ∃ r w', handle_command command kwargs w = (r, w')
    ∧ refs_ok w' ∧ r ≠ Raise SystemError ∧ r ≠ Raise OutOfFuel.
Proof.
  intros Hok. unfold handle_command.
  destruct (dispatch_dict !! command) as [func|].
  - destruct (call_sound func kwargs w) as (r & w1 & -> & _ & Hok1 & Hsys & Hno).
    specialize (Hok1 Hok). specialize (Hsys Hok).
    destruct r as [[] | e]; [ | destruct e]; run; eexists _, _;
      (split; [reflexivity | ]); (split; [exact Hok1 | ]);
      split; congruence.
  - run. eexists _, _. split; [reflexivity | ].
    split; [exact Hok | ]. split; discriminate.
Qed.

Lemma fresh_world_refs_ok (mode : Z) (host : string) :
  refs_ok (fresh_world mode host).
Proof. constructor. Qed.

(** Among validated records of which one does not resolve, the first that
    does not resolve fails with [RuntimeError]. *)
Lemma first_unresolved (h : CommandHandler) (host : string)
    (items : list any) (dc : any) :
  Forall validated items → dc ∈ items → resolves h host dc = false →
  ∃ pre x post,
    items = pre ++ x :: post
    ∧ forallb (resolves h host) pre = true
    ∧ _get_device h host x = Raise RuntimeError.
Proof.
  intros Hv. induction Hv as [ | y items Hy _ IH]; intros Hin Hr.
  - by apply elem_of_nil in Hin.
  - destruct (resolves h host y) eqn:Hry.
    + apply elem_of_cons in Hin as [-> | Hin]; [congruence | ].
      destruct (IH Hin Hr) as (pre & x & post & -> & Hpre & Hx).
      exists (y :: pre), x, post. simpl. rewrite Hry, Hpre. done.
    + exists [], y, items. split; [reflexivity | ]. split; [reflexivity | ].
      unfold resolves in Hry.
      destruct (get_device_outcome h host y Hy) as [[dev Hd] | Hd];
        [by rewrite Hd in Hry | exact Hd].
Qed.

(** [start_sending_telemetry] when the record after [pre] does not
    resolve. *)
Lemma start_fails_at (w : world) (pre post : list any) (dc : any) (e : exn) :
  _validate_configuration (_configuration (self w)) = Return tt →
  devices_of (_configuration (self w)) = pre ++ dc :: post →
  forallb (resolves (self w) (platform w)) pre = true →
  _get_device (self w) (platform w) dc = Raise e →
  ∃ w', start_sending_telemetry w = (Raise e, w')
        ∧ started_instruments (length pre) w w'.
Proof.
  intros Hv Hd Hpre Hdc.
  destruct (validated_configuration_items _ Hv) as (Hc & _ & Hval).
  clear Hv. rewrite Hd in Hc, Hval.
  apply Forall_app in Hval as [Hval _].
  destruct (connect_loop_fails pre post dc e w Hval Hpre Hdc) as (w' & Hl & Hst).
  exists w'. split; [ | exact Hst].
  by rewrite (start_unfold _ w Hc), Hl.
Qed.

(** [start_sending_telemetry] when every record resolves. *)
Lemma start_succeeds (w : world) :
  _validate_configuration (_configuration (self w)) = Return tt →
  forallb (resolves (self w) (platform w))
    (devices_of (_configuration (self w))) = true →
  ∃ w1, start_sending_telemetry w
        = (Return tt, set_self (set_started true) w1)
        ∧ started_instruments
            (length (devices_of (_configuration (self w)))) w w1.
Proof.
  intros Hv Hr.
  destruct (validated_configuration_items _ Hv) as (Hc & _ & Hval). clear Hv.
  destruct (connect_loop_resolved _ w Hval Hr) as (w1 & Hl & Hst).
  exists w1. split; [ | exact Hst].
  by rewrite (start_unfold _ w Hc), Hl.
Qed.

(** C6.  On a validated record device resolution returns the mock sensor
    when the simulation mode is on, whatever the type; otherwise the FTDI
    device for type FTDI, and the serial-hat device for type SERIAL when the
    platform string contains the architecture name.  In the one remaining
    case, SERIAL on another platform, it raises [RuntimeError], an exception
    without a response code.  When that happens to a record of the stored
    configuration, the error leaves [start_sending_telemetry] and
    [handle_command]: the sink receives no reply and the handler is not
    marked started. *)
Theorem get_device_policy (h : CommandHandler) (host : string) (dc : any) :
  validated dc →
  ∃ nm ch t,
    py_getitem dc Key.NAME = Return nm
    ∧ py_getitem dc Key.CHANNELS = Return ch
    ∧ py_getitem dc Key.TYPE = Return (AStr t)
    ∧ (t = DeviceType.FTDI ∨ t = DeviceType.SERIAL)
    ∧ (simulation_mode h = 1%Z →
       _get_device h host dc
       = Return (MockTemperatureSensor nm ch (disconnected_channel h)))
    ∧ (simulation_mode h ≠ 1%Z → t = DeviceType.FTDI →
       ∃ id, py_getitem dc Key.FTDI_ID = Return id
             ∧ _get_device h host dc = Return (VcpFtdi nm id))
    ∧ (simulation_mode h ≠ 1%Z → t = DeviceType.SERIAL →
       str_contains "aarch64" host = true →
       ∃ port, py_getitem dc Key.SERIAL_PORT = Return port
               ∧ _get_device h host dc = Return (RpiSerialHat nm port))
    ∧ (simulation_mode h ≠ 1%Z → t = DeviceType.SERIAL →
       str_contains "aarch64" host = false →
       _get_device h host dc = Raise RuntimeError)
    ∧ ((∀ dev, _get_device h host dc ≠ Return dev) →
       _get_device h host dc = Raise RuntimeError)
    ∧ (∀ w, self w = h → platform w = host →
            _validate_configuration (_configuration h) = Return tt →
            dc ∈ devices_of (_configuration h) →
            _get_device h host dc = Raise RuntimeError →
            ∃ w', start_sending_telemetry w = (Raise RuntimeError, w')
                  ∧ handle_command Command.START ∅ w = (Raise RuntimeError, w')
                  ∧ callbacks (events w') = callbacks (events w)
                  ∧ _started (self w') = _started (self w)).
Proof.
  intros Hv.
  destruct (get_device_validated h host dc Hv)
    as (nm & ch & t & Hn & Hc & Ht & Htt & Hsim & Hftdi & Hser & Hno).
  exists nm, ch, t. do 8 (split; [assumption | ]). split.
  - intros Hnone.
    destruct (get_device_outcome h host dc Hv) as [[dev Hd] | Hd];
      [by destruct (Hnone dev) | exact Hd].
  - intros w <- <- Hcfg Hin Hfail.
    destruct (validated_configuration_items _ Hcfg) as (_ & _ & Hval).
    destruct (first_unresolved (self w) (platform w) _ dc Hval Hin)
      as (pre & x & post & Hitems & Hpre & Hx).
    { unfold resolves. by rewrite Hfail. }
    destruct (start_fails_at w pre post x RuntimeError Hcfg Hitems Hpre Hx)
      as (w' & Hs & Hst).
    exists w'. split; [exact Hs | ]. rewrite handle_start, Hs.
    split; [reflexivity | ].
    destruct Hst as (_ & _ & He & _ & _ & _ & _ & _ & Hstarted).
    split; [ | exact Hstarted].
    rewrite He, callbacks_app.
    assert (∀ a b n, callbacks ((fun i => EnsureFuture (a + i) (b + i))
                                 <$> seq 0 n) = []) as Hnil.
    { intros a b n. generalize 0. induction n; intros k; simpl; auto. }
    by rewrite Hnil, app_nil_r.
Qed.

Lemma callbacks_ensure_future (a b k n : nat) :
  callbacks ((fun i => EnsureFuture (a + i) (b + i)) <$> seq k n) = [].
Proof. revert k. induction n; intros k; simpl; auto. Qed.

Lemma callbacks_started (w w' : world) (n : nat) :
  started_instruments n w w' → callbacks (events w') = callbacks (events w).
Proof.
  intros (_ & _ & He & _).
  by rewrite He, callbacks_app, callbacks_ensure_future, app_nil_r.
Qed.

(** C9.  A started handler does not reject a second start.  With the stored
    (validated) configuration, whose records resolve as they did at the
    first start, [handle_command] answers [OK]; one new running instrument
    per record is appended, in order, to the instruments already held, which
    stay; and when the handler held one instrument per record, as after a
    first start, it now holds twice as many. *)
Theorem second_start_appends (w : world) :
  _started (self w) = true →
  _validate_configuration (_configuration (self w)) = Return tt →
  forallb (resolves (self w) (platform w))
    (devices_of (_configuration (self w))) = true →
  ∃ w', handle_command Command.START ∅ w = (Return tt, w')
    ∧ callbacks (events w') = callbacks (events w) ++ [Response OK]
    ∧ _started (self w') = true
    ∧ _configuration (self w') = _configuration (self w)
    ∧ _ess_instruments (self w')
      = _ess_instruments (self w)
        ++ seq (length (heap w))
               (length (devices_of (_configuration (self w))))
    ∧ (∃ new, heap w' = heap w ++ new
              ∧ length new = length (devices_of (_configuration (self w)))
              ∧ Forall running new)
    ∧ (length (_ess_instruments (self w))
       = length (devices_of (_configuration (self w))) →
       length (_ess_instruments (self w'))
       = 2 * length (devices_of (_configuration (self w)))).
Proof.
  intros _ Hv Hr.
  destruct (start_succeeds w Hv Hr) as (w1 & Hs & Hst). clear Hv.
  pose proof (callbacks_started w w1 _ Hst) as Hcb.
  destruct Hst as (Hl & Hnew & _ & _ & _ & _ & _ & Hc & _).
  rewrite handle_start, Hs. run.
  eexists. split; [reflexivity | ]. simpl.
  split; [by rewrite callbacks_app, Hcb | ].
  split; [reflexivity | ]. split; [exact Hc | ]. split; [exact Hl | ].
  split; [exact Hnew | ].
  intros Hlen. rewrite Hl, length_app, length_seq. lia.
Qed.

(** C10.  [start_sending_telemetry] is not atomic.  When the record after
    [pre] in the stored (validated) configuration fails to resolve with
    [RuntimeError] while those of [pre] resolve, the error leaves
    [start_sending_telemetry] and [handle_command], with no reply to the
    sink; the handler is still not marked started; yet the instruments of
    [pre], one per record and in order, have been appended to the list, are
    running, and each has had its read loop scheduled. *)
Theorem start_not_atomic (w : world) (pre post : list any) (dc : any) :
  _started (self w) = false →
  _validate_configuration (_configuration (self w)) = Return tt →
  devices_of (_configuration (self w)) = pre ++ dc :: post →
  forallb (resolves (self w) (platform w)) pre = true →
  _get_device (self w) (platform w) dc = Raise RuntimeError →
  ∃ w', start_sending_telemetry w = (Raise RuntimeError, w')
    ∧ handle_command Command.START ∅ w = (Raise RuntimeError, w')
    ∧ _started (self w') = false
    ∧ callbacks (events w') = callbacks (events w)
    ∧ _ess_instruments (self w')
      = _ess_instruments (self w) ++ seq (length (heap w)) (length pre)
    ∧ (∃ new, heap w' = heap w ++ new ∧ length new = length pre
              ∧ Forall running new)
    ∧ events w'
      = events w ++
        ((fun i => EnsureFuture (length (heap w) + i) (tasks w + i))
           <$> seq 0 (length pre)).
Proof.
  intros Hns Hv Hd Hpre Hdc.
  destruct (start_fails_at w pre post dc RuntimeError Hv Hd Hpre Hdc)
    as (w' & Hs & Hst). clear Hv.
  pose proof (callbacks_started w w' _ Hst) as Hcb.
  destruct Hst as (Hl & Hnew & He & _ & _ & _ & _ & _ & Hstarted).
  exists w'. split; [exact Hs | ]. rewrite handle_start, Hs.
  split; [reflexivity | ]. split; [congruence | ]. split; [exact Hcb | ].
  split; [exact Hl | ]. split; [exact Hnew | exact He].
Qed.

(* ===================================================================== *)
(** ** What the loop of stop_sending_telemetry leaves *)
(* ===================================================================== *)

Lemma every_other_elem (ref : nat) (l : list nat) :
  ref ∈ every_other l → ref ∈ l.
Proof.
  revert ref. induction l as [l IH] using (induction_ltof1 _ (@length nat)).
  unfold ltof in IH. intros ref.
  destruct l as [ | a [ | b rest]]; simpl; try (intros H; by inversion H).
  intros H. apply elem_of_cons in H as [-> | H].
  - right. left.
  - do 2 right. apply IH; [simpl; lia | exact H].
Qed.

Lemma length_every_other (l : list nat) :
  length (every_other l) = Nat.div2 (length l).
Proof.
  induction l as [l IH] using (induction_ltof1 _ (@length nat)).
  unfold ltof in IH.
  destruct l as [ | a [ | b rest]]; simpl; try reflexivity.
  rewrite IH; [reflexivity | simpl; lia].
Qed.

Lemma list_remove_middle (x : nat) (l1 l2 : list nat) :
  x ∉ l1 → list_remove x (l1 ++ x :: l2) = Some (l1 ++ l2).
Proof.
  induction l1 as [ | y l1 IH]; simpl; intros Hx.
  - by rewrite Nat.eqb_refl.
  - apply not_elem_of_cons in Hx as [Hne Hx].
    apply Nat.eqb_neq in Hne. rewrite Hne, (IH Hx). reflexivity.
Qed.

(** [stop] on an instrument of the store: it returns, and only the object
    itself changes, which ends not enabled. *)
Lemma stop_Return (ref : nat) (o : EssInstrument) (w : world) :
  heap w !! ref = Some o → stoppable o →
  ∃ w', stop ref w = (Return tt, w')
        ∧ self w' = self w
        ∧ heap w' = <[ref := set_enabled false o]> (heap w).
Proof.
  intros Ho Hst. unfold stop. run. rewrite Ho.
  destruct (_enabled o) eqn:He.
  - destruct (Hst He) as [task Ht]. rewrite Ht. simpl. rewrite Ho.
    eexists. split; [reflexivity | ]. split; reflexivity.
  - simpl. rewrite Ho. eexists. split; [reflexivity | ]. split; reflexivity.
Qed.

(** The iterator at or past the end of the list: the loop is over. *)
Lemma stop_loop_past_end (fuel index : nat) (w : world) :
  (length (_ess_instruments (self w)) ≤ index)%nat →
  stop_loop fuel index w = (Return tt, w).
Proof.
  intros Hle. destruct fuel; simpl; by rewrite lookup_ge_None_2.
Qed.

(** The loop from index [length kept] on, when the list is [kept ++ rest]
    without repetition: of [rest] it stops and removes the first, third,
    fifth item and so on, and leaves the others in the list and their
    objects as they were. *)
Lemma stop_loop_every_other (fuel : nat) (kept rest : list nat) (w : world) :
  _ess_instruments (self w) = kept ++ rest →
  NoDup (kept ++ rest) →
  (length rest ≤ fuel)%nat →
  (∀ ref, ref ∈ rest → ∃ o, heap w !! ref = Some o ∧ stoppable o) →
  ∃ w', stop_loop fuel (length kept) w = (Return tt, w')
        ∧ _ess_instruments (self w') = kept ++ every_other rest
        ∧ _started (self w') = _started (self w)
        ∧ (∀ ref, ref ∉ rest ∨ ref ∈ every_other rest →
                  heap w' !! ref = heap w !! ref).
Proof.
  revert kept rest w.
  induction fuel as [ | fuel IH]; intros kept rest w Hl Hnd Hf Hok.
  - destruct rest; [ | simpl in Hf; lia].
    rewrite app_nil_r in *.
    rewrite stop_loop_past_end by (rewrite Hl; lia).
    exists w. simpl. auto.
  - destruct rest as [ | a rest].
    + rewrite app_nil_r in *.
      rewrite stop_loop_past_end by (rewrite Hl; lia).
      exists w. simpl. auto.
    + simpl. rewrite Hl, list_lookup_middle by reflexivity.
      destruct (Hok a) as (o & Ho & Hst); [left | ].
      destruct (stop_Return a o w Ho Hst) as (w1 & Hs & Hself & Hheap).
      unfold mbind, M_bind. rewrite Hs.
      apply NoDup_app in Hnd as (Hk & Hdisj & Hr).
      apply NoDup_cons in Hr as [Ha Hr].
      assert (a ∉ kept) as Hak by (intros Hin; apply (Hdisj a Hin); left).
      unfold remove_instrument. run.
      rewrite Hself, Hl, (list_remove_middle a kept rest Hak).
      set (w2 := set_self (set_ess_instruments (kept ++ rest)) w1).
      assert (∀ ref, ref ≠ a → heap w2 !! ref = heap w !! ref) as Hsame.
      { intros ref Hne. simpl. rewrite Hheap.
        by rewrite list_lookup_insert_ne. }
      destruct rest as [ | b rest].
      * (* the iterator is past the end of the list *)
        rewrite stop_loop_past_end by (simpl; rewrite app_nil_r; lia).
        exists w2. split; [reflexivity | ]. split; [reflexivity | ].
        split; [simpl; by rewrite Hself | ].
        intros ref [Hn | Hin]; [ | by inversion Hin].
        apply Hsame. intros ->. apply Hn. left.
      * (* [b] is skipped: the iterator goes on after it *)
        apply NoDup_cons in Hr as [Hb Hr].
        destruct (IH (kept ++ [b]) rest w2) as (w' & Hloop & Hl' & Hs' & Hh').
        { simpl. by rewrite <- app_assoc. }
        { rewrite <- app_assoc. simpl. apply NoDup_app. split; [exact Hk | ].
          split; [ | by apply NoDup_cons].
          intros x Hx Hin. apply (Hdisj x Hx). by right. }
        { simpl in Hf. lia. }
        { intros ref Hin. destruct (Hok ref) as (o' & Ho' & Hst');
            [by do 2 right | ].
          exists o'. split; [ | exact Hst'].
          rewrite Hsame; [exact Ho' | ].
          intros ->. apply Ha. by right. }
        rewrite length_app in Hloop. simpl in Hloop.
        rewrite Nat.add_1_r in Hloop.
        exists w'. split; [exact Hloop | ].
        split; [by rewrite Hl', <- app_assoc | ].
        split; [by rewrite Hs', <- Hself | ].
        intros ref Href. rewrite Hh', Hsame.
        -- reflexivity.
        -- intros ->. destruct Href as [Hn | Hin]; [apply Hn; left | ].
           apply elem_of_cons in Hin as [-> | Hin];
             [apply Ha; left | ].
           apply Ha. right. by apply every_other_elem.
        -- destruct Href as [Hn | Hin].
           ++ left. intros Hin. apply Hn. by do 2 right.
           ++ apply elem_of_cons in Hin as [-> | Hin]; [by left | by right].
Qed.

(** [stop_sending_telemetry] in a started handler that holds [n] distinct
    instruments: it returns [OK] and marks the handler not started, and the
    handler still holds every other instrument, [n / 2] of them, untouched. *)
Lemma stop_sending_telemetry_every_other (w : world) :
  _started (self w) = true →
  NoDup (_ess_instruments (self w)) →
  (∀ ref, ref ∈ _ess_instruments (self w) →
          ∃ o, heap w !! ref = Some o ∧ stoppable o) →
  ∃ w', stop_sending_telemetry w = (Return OK, w')
        ∧ _started (self w') = false
        ∧ _ess_instruments (self w') = every_other (_ess_instruments (self w))
        ∧ length (_ess_instruments (self w'))
          = Nat.div2 (length (_ess_instruments (self w)))
        ∧ (∀ ref, ref ∈ _ess_instruments (self w') →
                  heap w' !! ref = heap w !! ref).
Proof.
  intros Hs Hnd Hok. unfold stop_sending_telemetry. run. rewrite Hs. simpl.
  destruct (stop_loop_every_other (length (_ess_instruments (self w))) []
              (_ess_instruments (self w))
              (set_self (set_started false) w))
    as (w' & Hloop & Hl & Hst & Hh); auto.
  simpl in Hloop. rewrite Hloop. exists w'.
  split; [reflexivity | ]. split; [exact Hst | ]. simpl in Hl.
  split; [exact Hl | ]. split; [by rewrite Hl, length_every_other | ].
  intros ref Hin. rewrite Hl in Hin. rewrite Hh; [reflexivity | by right].
Qed.

(* ===================================================================== *)
(** ** The handler at work on the examples *)
(* ===================================================================== *)

Lemma init_world_fresh (host : string) :
  init_world 0 host = Return (fresh_world 0 host)
  ∧ init_world 1 host = Return (fresh_world 1 host).
Proof. split; reflexivity. Qed.

(** C1, on the code.  With two instruments held and running, a successful
    stop marks the handler not started and answers [OK], but it stops and
    removes the first instrument only: the loop removes from the list it is
    iterating over, so the iterator, moving on to index 1 of a list that now
    has one item, ends.  The second instrument stays in the list, enabled,
    its task not cancelled and its reader not stopped. *)
Theorem stop_leaves_second_supervisor :
  _started (self simulated_started) = true
  ∧ _ess_instruments (self simulated_started) = [0; 1]
  ∧ (_enabled <$> heap simulated_started) = [true; true]
  ∧ (handle_command Command.STOP ∅ simulated_started).1 = Return tt
  ∧ _started (self (handle_command Command.STOP ∅ simulated_started).2) = false
  ∧ _ess_instruments (self (handle_command Command.STOP ∅ simulated_started).2)
    = [1]
  ∧ (_enabled <$> heap (handle_command Command.STOP ∅ simulated_started).2)
    = [false; true]
  ∧ events (handle_command Command.STOP ∅ simulated_started).2
    = events simulated_started
      ++ [TaskCancel 0; ReaderStop 0; Callback (Response OK)].
Proof. repeat split; vm_compute; reflexivity. Qed.

(** C3, on the code.  Configure, start, stop, configure, start with the two
    devices: every command returns and is answered [OK], and the handler
    holds two instruments after the first start, but one, not none, after the
    stop, and three, not two, after the second start. *)
Theorem cycle_keeps_a_supervisor :
  (handle_all [configure_with two_devices; start_command; stop_command;
               configure_with two_devices; start_command]
     (fresh_world 1 desktop)).1
  = [(Return tt, []); (Return tt, [0; 1]); (Return tt, [1]);
     (Return tt, [1]); (Return tt, [1; 2; 3])]
  ∧ callbacks (events
      (handle_all [configure_with two_devices; start_command; stop_command;
                   configure_with two_devices; start_command]
         (fresh_world 1 desktop)).2)
    = [Response OK; Response OK; Response OK; Response OK; Response OK].
Proof. split; vm_compute; reflexivity. Qed.

(** C2 does not hold as stated: on a desktop with the simulation mode off,
    the start of a configuration with a SERIAL device raises [RuntimeError]
    out of [handle_command], and the sink receives no reply. *)
Lemma start_fatal_zero_replies : ¬ exactly_one_reply.
Proof.
  intros H.
  destruct (H Command.START ∅ desktop_configured) as (r & w' & code & Hh & Hcb);
    [right; left; reflexivity | ].
  assert (callbacks (events (handle_command Command.START ∅
                               desktop_configured).2)
          = callbacks (events desktop_configured)) as Hsame
    by (vm_compute; reflexivity).
  rewrite Hh in Hsame. cbn [snd] in Hsame. rewrite Hsame in Hcb.
  apply (f_equal length) in Hcb. rewrite length_app in Hcb. simpl in Hcb. lia.
Qed.

(** C7 does not hold as stated: [stop] on a running instrument cancels the
    task and stops the reader, and awaits nothing in between. *)
Lemma stop_does_not_await : ¬ stop_awaits_task.
Proof.
  intros H.
  destruct (H one_running 0 running_instrument 0 eq_refl eq_refl eq_refl)
    as (w' & es & Hs & He & Hsub).
  assert (events (stop 0 one_running).2
          = events one_running ++ [TaskCancel 0; ReaderStop 0]) as Hev
    by reflexivity.
  rewrite Hs in Hev. cbn [snd] in Hev. rewrite He in Hev.
  apply app_inv_head in Hev. subst es.
  apply sublist_length in Hsub. simpl in Hsub. lia.
Qed.

(* ===================================================================== *)
(** ** The theorems at work on the examples *)
(* ===================================================================== *)

(** A configuration with a SERIAL record that has no [serial_port] is
    rejected. *)
Lemma validate_configuration_rejects_exactly_witness :
  configuration_of [portless_record "d1"] !! Key.DEVICES
  = (fun ds => AList (ADict <$> ds)) <$> Some [portless_record "d1"]
  ∧ rejected (_validate_configuration
                (ADict (configuration_of [portless_record "d1"]))).
Proof.
  assert (configuration_of [portless_record "d1"] !! Key.DEVICES
          = (fun ds => AList (ADict <$> ds)) <$> Some [portless_record "d1"])
    as H by (vm_compute; reflexivity).
  split; [exact H | ].
  apply (validate_configuration_rejects_exactly _ _ H).
  do 3 right. exists [portless_record "d1"]. split; [reflexivity | ].
  constructor. do 5 right. split; vm_compute; reflexivity.
Defined.

(** The fatal start on a desktop: the coroutine raises, the sink hears
    nothing and [handle_command] raises as well. *)
Lemma handle_command_replies_witness :
  (Command.START = Command.CONFIGURE ∨ Command.START = Command.START
   ∨ Command.START = Command.STOP)
  ∧ ∃ r w1,
      call Hstart_sending_telemetry ∅ desktop_configured = (r, w1)
      ∧ callbacks (events w1) = callbacks (events desktop_configured).
Proof.
  split; [right; left; reflexivity | ].
  destruct (handle_command_replies Command.START ∅ desktop_configured)
    as (func & r & w1 & Hf & Hcall & Hcb & _); [right; left; reflexivity | ].
  injection Hf as <-. exists r, w1. split; [exact Hcall | exact Hcb].
Defined.

(** A SERIAL record on a desktop, simulation mode off: no device. *)
Lemma get_device_policy_witness :
  validated (ADict (serial_record "d2"))
  ∧ _get_device (self (fresh_world 0 desktop)) desktop
      (ADict (serial_record "d2"))
    = Raise RuntimeError.
Proof.
  assert (validated (ADict (serial_record "d2"))) as H
    by (vm_compute; reflexivity).
  split; [exact H | ].
  destruct (get_device_policy (self (fresh_world 0 desktop)) desktop
              (ADict (serial_record "d2")) H)
    as (nm & ch & t & _ & _ & Ht & _ & _ & _ & _ & Hno & _).
  clear H. vm_compute in Ht. injection Ht as <-.
  apply Hno; [discriminate | reflexivity | vm_compute; reflexivity].
Defined.

Lemma stop_cancels_then_stops_reader_witness :
  heap one_running !! 0 = Some running_instrument
  ∧ ∃ w', stop 0 one_running = (Return tt, w')
          ∧ events w' = events one_running ++ [TaskCancel 0; ReaderStop 0].
Proof.
  split; [reflexivity | ].
  destruct (stop_cancels_then_stops_reader one_running 0 running_instrument
              eq_refl) as [Hrun _].
  destruct (Hrun 0 eq_refl eq_refl) as (w' & Hs & He & _).
  exists w'. split; [exact Hs | exact He].
Defined.

Lemma start_not_configured_witness :
  _configuration (self (fresh_world 0 desktop)) = ANone
  ∧ start_sending_telemetry (fresh_world 0 desktop)
    = (Raise (CommandError NoConfigurationReceived NOT_CONFIGURED),
       fresh_world 0 desktop).
Proof.
  split; [reflexivity | ].
  apply (start_not_configured (fresh_world 0 desktop) eq_refl).
Defined.

(** A second start in simulation mode: four instruments. *)
Lemma second_start_appends_witness :
  _started (self simulated_started) = true
  ∧ _validate_configuration (_configuration (self simulated_started))
    = Return tt
  ∧ forallb (resolves (self simulated_started) (platform simulated_started))
      (devices_of (_configuration (self simulated_started))) = true
  ∧ ∃ w', handle_command Command.START ∅ simulated_started = (Return tt, w')
          ∧ _ess_instruments (self w') = [0; 1; 2; 3].
Proof.
  assert (_started (self simulated_started) = true) as H1
    by (vm_compute; reflexivity).
  assert (_validate_configuration (_configuration (self simulated_started))
          = Return tt) as H2 by (vm_compute; reflexivity).
  assert (forallb (resolves (self simulated_started)
                     (platform simulated_started))
            (devices_of (_configuration (self simulated_started))) = true)
    as H3 by (vm_compute; reflexivity).
  split; [exact H1 | ]. split; [exact H2 | ]. split; [exact H3 | ].
  destruct (second_start_appends simulated_started H1 H2 H3)
    as (w' & Hh & _ & _ & _ & Hl & _).
  exists w'. split; [exact Hh | ]. rewrite Hl. vm_compute. reflexivity.
Defined.

(** The two devices on a desktop: the FTDI instrument is left running when
    the SERIAL record fails. *)
Lemma start_not_atomic_witness :
  _started (self desktop_configured) = false
  ∧ devices_of (_configuration (self desktop_configured))
    = [ADict (ftdi_record "d1")] ++ ADict (serial_record "d2") :: []
  ∧ ∃ w', handle_command Command.START ∅ desktop_configured
          = (Raise RuntimeError, w')
          ∧ _started (self w') = false
          ∧ _ess_instruments (self w') = [0].
Proof.
  assert (_started (self desktop_configured) = false) as H1
    by (vm_compute; reflexivity).
  assert (_validate_configuration (_configuration (self desktop_configured))
          = Return tt) as H2 by (vm_compute; reflexivity).
  assert (devices_of (_configuration (self desktop_configured))
          = [ADict (ftdi_record "d1")] ++ ADict (serial_record "d2") :: [])
    as H3 by (vm_compute; reflexivity).
  assert (forallb (resolves (self desktop_configured)
                     (platform desktop_configured))
            [ADict (ftdi_record "d1")] = true) as H4
    by (vm_compute; reflexivity).
  assert (_get_device (self desktop_configured) (platform desktop_configured)
            (ADict (serial_record "d2")) = Raise RuntimeError) as H5
    by (vm_compute; reflexivity).
  split; [exact H1 | ]. split; [exact H3 | ].
  destruct (start_not_atomic desktop_configured _ _ _ H1 H2 H3 H4 H5)
    as (w' & _ & Hh & Hs & _ & Hl & _).
  exists w'. split; [exact Hh | ]. split; [exact Hs | ].
  rewrite Hl. vm_compute. reflexivity.
Defined.

(* ===================================================================== *)
(** ** Commands out of turn *)
(* ===================================================================== *)

Lemma dispatch_unknown (command : string) :
  command ≠ Command.CONFIGURE → command ≠ Command.START →
  command ≠ Command.STOP → dispatch_dict !! command = None.
Proof.
  intros H1 H2 H3. unfold dispatch_dict.
  rewrite lookup_insert_ne by congruence.
  rewrite lookup_insert_ne by congruence.
  by rewrite lookup_singleton_ne by congruence.
Qed.

(** X1.  A command that is none of [configure], [start], [stop] makes
    [handle_command] raise [KeyError] at the lookup in [dispatch_dict]: the
    sink receives no reply and nothing changes. *)
Theorem handle_unknown_command (command : string) (kwargs : gmap string any)
    (w : world) :
  command ≠ Command.CONFIGURE → command ≠ Command.START →
  command ≠ Command.STOP →
  handle_command command kwargs w = (Raise (KeyError command), w).
Proof.
  intros H1 H2 H3. unfold handle_command.
  by rewrite (dispatch_unknown command H1 H2 H3).
Qed.

Lemma handle_unknown_command_witness :
  handle_command "restart" ∅ (fresh_world 0 desktop)
  = (Raise (KeyError "restart"), fresh_world 0 desktop).
Proof.
  apply (handle_unknown_command "restart" ∅ (fresh_world 0 desktop));
    discriminate.
Defined.

Lemma same_settings_refl (w : world) : same_settings w w.
Proof. unfold same_settings. auto. Qed.

Lemma same_settings_trans (w1 w2 w3 : world) :
  same_settings w1 w2 → same_settings w2 w3 → same_settings w1 w3.
Proof.
  unfold same_settings.
  intros (A1 & A2 & A3 & A4 & A5) (B1 & B2 & B3 & B4 & B5).
  repeat split; congruence.
Qed.

Lemma stop_settings (ref : nat) (w : world) :
  same_settings w (stop ref w).2.
Proof.
  destruct (stop_cases ref w) as (r & w' & Hs & Hself & Hq & _).
  rewrite Hs. simpl. destruct Hq as (_ & _ & Hp & _).
  unfold same_settings. rewrite Hself. auto.
Qed.

Lemma remove_instrument_settings (ref : nat) (w : world) :
  same_settings w (remove_instrument ref w).2.
Proof.
  unfold remove_instrument. run.
  destruct (list_remove ref (_ess_instruments (self w))); simpl;
    unfold same_settings; simpl; auto.
Qed.

(** The loop of [stop_sending_telemetry], however it ends, changes neither
    the stored configuration nor the started flag. *)
Lemma stop_loop_settings (fuel index : nat) (w : world) :
  same_settings w (stop_loop fuel index w).2.
Proof.
  revert index w. induction fuel as [ | fuel IH]; intros index w; simpl;
    destruct (_ess_instruments (self w) !! index) as [ref|];
    try apply same_settings_refl.
  unfold mbind, M_bind.
  pose proof (stop_settings ref w) as H1.
  destruct (stop ref w) as [[[] | e] w1]; simpl in *; [ | exact H1].
  pose proof (remove_instrument_settings ref w1) as H2.
  destruct (remove_instrument ref w1) as [[[] | e] w2]; simpl in *;
    [ | eauto using same_settings_trans].
  eapply same_settings_trans; [exact H1 | ].
  eapply same_settings_trans; [exact H2 | apply IH].
Qed.

(** After [stop_sending_telemetry], whatever it returned or raised, the
    handler is not started. *)
Lemma stop_sending_telemetry_not_started (w : world) :
  _started (self (stop_sending_telemetry w).2) = false
  ∧ _configuration (self (stop_sending_telemetry w).2)
    = _configuration (self w).
Proof.
  unfold stop_sending_telemetry. run.
  destruct (_started (self w)) eqn:Hs; simpl; [ | auto].
  pose proof (stop_loop_settings (length (_ess_instruments (self w))) 0
                (set_self (set_started false) w)) as (_ & _ & _ & Hc & Hst).
  destruct (stop_loop _ 0 _) as [[[] | e] w']; simpl in *; auto.
Qed.

(** X2.  A stop that follows a stop is always answered [NOT_STARTED],
    whatever the first one did: [stop_sending_telemetry] clears the started
    flag before it stops any instrument, so the handler is not started after
    any stop command; and in a handler that is not started, stop raises
    [NOT_STARTED] and changes nothing but the reply sent. *)
Theorem second_stop_not_started (w : world) :
  _started (self (handle_command Command.STOP ∅ w).2) = false
  ∧ (_started (self w) = false →
     stop_sending_telemetry w
     = (Raise (CommandError NotStartedYet NOT_STARTED), w))
  ∧ ∃ w2,
      handle_command Command.STOP ∅ (handle_command Command.STOP ∅ w).2
      = (Return tt, w2)
      ∧ self w2 = self (handle_command Command.STOP ∅ w).2
      ∧ heap w2 = heap (handle_command Command.STOP ∅ w).2
      ∧ events w2
        = events (handle_command Command.STOP ∅ w).2
          ++ [Callback (Response NOT_STARTED)].
Proof.
  assert (∀ w0, _started (self w0) = false →
                stop_sending_telemetry w0
                = (Raise (CommandError NotStartedYet NOT_STARTED), w0)) as Hns.
  { intros w0 H0. unfold stop_sending_telemetry. run. by rewrite H0. }
  assert (_started (self (handle_command Command.STOP ∅ w).2) = false) as H1.
  { rewrite handle_stop.
    destruct (stop_sending_telemetry_not_started w) as [Hst _].
    destruct (stop_sending_telemetry w) as [[rc | e] w1]; simpl in *;
      [exact Hst | destruct e; exact Hst]. }
  split; [exact H1 | split; [apply Hns | ]].
  rewrite (handle_stop (handle_command Command.STOP ∅ w).2), (Hns _ H1).
  run. eexists. split; [reflexivity | ]. auto.
Qed.

(** X3.  Configuration is last write wins: two valid configurations sent one
    after the other to a handler that is not started are both answered [OK],
    and the second is the one stored; nothing else of the handler changes. *)
Theorem configure_twice_keeps_last (c1 c2 : any) (w : world) :
  _started (self w) = false →
  _validate_configuration c1 = Return tt →
  _validate_configuration c2 = Return tt →
  ∃ w1 w2,
    handle_command Command.CONFIGURE {[ "configuration" := c1 ]} w
    = (Return tt, w1)
    ∧ handle_command Command.CONFIGURE {[ "configuration" := c2 ]} w1
      = (Return tt, w2)
    ∧ _configuration (self w1) = c1
    ∧ _configuration (self w2) = c2
    ∧ self w2 = set_configuration c2 (self w)
    ∧ heap w2 = heap w
    ∧ events w2
      = events w ++ [Callback (Response OK); Callback (Response OK)].
Proof.
  intros Hs H1 H2.
  rewrite handle_configure. unfold configure at 1. run. rewrite Hs, H1. simpl.
  eexists _, _. split; [reflexivity | ].
  rewrite handle_configure. unfold configure. run. rewrite Hs, H2. simpl.
  split; [reflexivity | ]. clear H1 H2.
  split; [reflexivity | ]. split; [reflexivity | ]. split; [reflexivity | ].
  split; [reflexivity | ]. simpl. by rewrite <- app_assoc.
Qed.

Lemma configure_twice_keeps_last_witness :
  _started (self (fresh_world 0 desktop)) = false
  ∧ _validate_configuration two_devices = Return tt
  ∧ _validate_configuration
      (ADict (configuration_of [serial_record "d3"])) = Return tt
  ∧ ∃ w1 w2,
      handle_command Command.CONFIGURE {[ "configuration" := two_devices ]}
        (fresh_world 0 desktop) = (Return tt, w1)
      ∧ handle_command Command.CONFIGURE
          {[ "configuration" :=
               ADict (configuration_of [serial_record "d3"]) ]} w1
        = (Return tt, w2)
      ∧ _configuration (self w2)
        = ADict (configuration_of [serial_record "d3"]).
Proof.
  assert (_validate_configuration two_devices = Return tt) as H1
    by (vm_compute; reflexivity).
  assert (_validate_configuration
            (ADict (configuration_of [serial_record "d3"])) = Return tt)
    as H2 by (vm_compute; reflexivity).
  split; [reflexivity | ]. split; [exact H1 | ]. split; [exact H2 | ].
  destruct (configure_twice_keeps_last _ _ (fresh_world 0 desktop)
              eq_refl H1 H2) as (w1 & w2 & Ha & Hb & _ & Hc & _).
  exists w1, w2. split; [exact Ha | ]. split; [exact Hb | exact Hc].
Defined.

(* ===================================================================== *)
(** ** Starting and stopping instruments *)
(* ===================================================================== *)

(** [EssInstrument.start] on an object of the store. *)
Lemma start_lookup (ref : nat) (o : EssInstrument) (w : world) :
  heap w !! ref = Some o →
  start ref w
  = (Return tt,
     {| self := self w;
        heap := <[ref := {| _reader := _reader o; _enabled := true;
                            name := name o;
                            telemetry_loop := Some (tasks w) |}]> (heap w);
        tasks := S (tasks w);
        platform := platform w;
        events := events w ++ [EnsureFuture ref (tasks w)] |}).
Proof.
  intros Ho. pose proof (lookup_lt_Some _ _ _ Ho) as Hlt.
  unfold start, ensure_future. run. rewrite Ho. simpl.
  rewrite list_lookup_insert_eq by done. simpl.
  unfold set_heap. simpl. by rewrite list_insert_insert_eq.
Qed.

(** X4.  [start] has no guard: started twice, an instrument schedules two
    read loops and keeps only the task of the second.  A stop then cancels
    that one and stops the reader; the task of the first start is never
    cancelled. *)
Theorem start_twice_forgets_first_task (ref : nat) (o : EssInstrument)
    (w : world) :
  heap w !! ref = Some o →
  ∃ w1 w2 w3,
    start ref w = (Return tt, w1)
    ∧ start ref w1 = (Return tt, w2)
    ∧ stop ref w2 = (Return tt, w3)
    ∧ telemetry_loop <$> heap w2 !! ref = Some (Some (S (tasks w)))
    ∧ events w3
      = events w ++ [EnsureFuture ref (tasks w);
                     EnsureFuture ref (S (tasks w));
                     TaskCancel (S (tasks w)); ReaderStop ref]
    ∧ TaskCancel (tasks w) ∉ [EnsureFuture ref (tasks w);
                              EnsureFuture ref (S (tasks w));
                              TaskCancel (S (tasks w)); ReaderStop ref].
Proof.
  intros Ho. pose proof (lookup_lt_Some _ _ _ Ho) as Hlt.
  rewrite (start_lookup ref o w Ho).
  eexists _, _, _. split; [reflexivity | ].
  erewrite start_lookup; [ | simpl; by apply list_lookup_insert_eq].
  split; [reflexivity | ]. simpl.
  unfold stop. run.
  rewrite list_lookup_insert_eq by (by rewrite length_insert). simpl.
  rewrite list_lookup_insert_eq by (by rewrite length_insert). simpl.
  split; [reflexivity | ]. simpl.
  split; [reflexivity | ].
  split; [by rewrite <- !app_assoc | ].
  intros Hin. repeat (apply elem_of_cons in Hin as [Hin | Hin];
                      [try discriminate | ]).
  - injection Hin. lia.
  - by apply elem_of_nil in Hin.
Qed.

Lemma start_twice_forgets_first_task_witness :
  heap one_running !! 0 = Some running_instrument
  ∧ ∃ w1 w2 w3,
      start 0 one_running = (Return tt, w1)
      ∧ start 0 w1 = (Return tt, w2)
      ∧ stop 0 w2 = (Return tt, w3)
      ∧ events w3
        = events one_running
          ++ [EnsureFuture 0 1; EnsureFuture 0 2; TaskCancel 2; ReaderStop 0].
Proof.
  split; [reflexivity | ].
  destruct (start_twice_forgets_first_task 0 running_instrument one_running
              eq_refl) as (w1 & w2 & w3 & H1 & H2 & H3 & _ & He & _).
  exists w1, w2, w3. split; [exact H1 | ]. split; [exact H2 | ].
  split; [exact H3 | exact He].
Defined.

(** [EssInstrument.stop] on a running instrument of the store. *)
Lemma stop_running (ref task : nat) (o : EssInstrument) (w : world) :
  heap w !! ref = Some o → _enabled o = true → telemetry_loop o = Some task →
  stop ref w
  = (Return tt,
     {| self := self w;
        heap := <[ref := set_enabled false o]> (heap w);
        tasks := tasks w;
        platform := platform w;
        events := (events w ++ [TaskCancel task]) ++ [ReaderStop ref] |}).
Proof.
  intros Ho He Ht. unfold stop. run. rewrite Ho, He, Ht. simpl.
  by rewrite Ho.
Qed.

(** One pass of the loop of [stop_sending_telemetry]. *)
Lemma stop_loop_step (fuel index ref : nat) (w : world) :
  _ess_instruments (self w) !! index = Some ref →
  stop_loop (S fuel) index w =
  match stop ref w with
  | (Return _, w1) =>
      match remove_instrument ref w1 with
      | (Return _, w2) => stop_loop fuel (S index) w2
      | (Raise e, w2) => (Raise e, w2)
      end
  | (Raise e, w1) => (Raise e, w1)
  end.
Proof. intros H. simpl. rewrite H. reflexivity. Qed.

Lemma stop_sending_started (w : world) :
  _started (self w) = true →
  stop_sending_telemetry w =
  match stop_loop (length (_ess_instruments (self w))) 0
          (set_self (set_started false) w) with
  | (Return _, w') => (Return OK, w')
  | (Raise e, w') => (Raise e, w')
  end.
Proof.
  intros Hs. unfold stop_sending_telemetry. run. rewrite Hs. simpl.
  destruct (stop_loop _ 0 _) as [[[] | e] w']; reflexivity.
Qed.

(** X5.  With one running instrument, stop does all of its work: the task is
    cancelled, the reader stopped, the instrument left not enabled and
    removed, the handler marked not started, and the sink told [OK]. *)
Theorem stop_single_instrument (w : world) (ref task : nat)
    (o : EssInstrument) :
  _started (self w) = true →
  _ess_instruments (self w) = [ref] →
  heap w !! ref = Some o →
  _enabled o = true → telemetry_loop o = Some task →
  ∃ w', handle_command Command.STOP ∅ w = (Return tt, w')
    ∧ _started (self w') = false
    ∧ _ess_instruments (self w') = []
    ∧ _configuration (self w') = _configuration (self w)
    ∧ heap w' = <[ref := set_enabled false o]> (heap w)
    ∧ events w'
      = events w ++ [TaskCancel task; ReaderStop ref; Callback (Response OK)].
Proof.
  intros Hs Hl Ho He Ht.
  rewrite handle_stop, (stop_sending_started w Hs), Hl.
  rewrite (stop_loop_step 0 0 ref) by (simpl; by rewrite Hl).
  rewrite (stop_running ref task o (set_self (set_started false) w) Ho He Ht).
  unfold remove_instrument. run. rewrite Hl. simpl.
  rewrite Nat.eqb_refl. simpl.
  eexists. split; [reflexivity | ]. simpl.
  repeat split. by rewrite <- !app_assoc.
Qed.

Lemma stop_single_instrument_witness :
  _started (self (set_self (set_started true) one_running)) = true
  ∧ ∃ w', handle_command Command.STOP ∅
            (set_self (set_started true) one_running) = (Return tt, w')
          ∧ _ess_instruments (self w') = []
          ∧ events w'
            = [EnsureFuture 0 0; TaskCancel 0; ReaderStop 0;
               Callback (Response OK)].
Proof.
  split; [reflexivity | ].
  destruct (stop_single_instrument (set_self (set_started true) one_running)
              0 0 running_instrument eq_refl eq_refl eq_refl eq_refl eq_refl)
    as (w' & Hh & _ & Hl & _ & _ & He).
  exists w'. split; [exact Hh | ]. split; [exact Hl | exact He].
Defined.

(** X6.  In general the loop of [stop_sending_telemetry] serves every other
    instrument only.  In a started handler that holds [n] distinct
    instruments, stop is answered [OK] and the handler is marked not started,
    but the second, fourth, ... instruments, [n / 2] of them, stay in the
    list with their objects untouched: not stopped, not removed. *)
Theorem stop_keeps_every_other_instrument (w : world) :
  _started (self w) = true →
  NoDup (_ess_instruments (self w)) →
  (∀ ref, ref ∈ _ess_instruments (self w) →
          ∃ o, heap w !! ref = Some o ∧ stoppable o) →
  ∃ w', handle_command Command.STOP ∅ w = (Return tt, w')
    ∧ callbacks (events w') = callbacks (events w) ++ [Response OK]
    ∧ _started (self w') = false
    ∧ _ess_instruments (self w') = every_other (_ess_instruments (self w))
    ∧ length (_ess_instruments (self w'))
      = Nat.div2 (length (_ess_instruments (self w)))
    ∧ (∀ ref, ref ∈ _ess_instruments (self w') →
              heap w' !! ref = heap w !! ref).
Proof.
  intros Hs Hnd Hok.
  destruct (stop_sending_telemetry_every_other w Hs Hnd Hok)
    as (w1 & Hstop & Hst & Hl & Hlen & Hh).
  destruct (stop_sending_telemetry_total w) as (r & w1' & Hstop' & Hq & _).
  rewrite Hstop in Hstop'. injection Hstop' as <- <-.
  destruct Hq as [Hcb _].
  rewrite handle_stop, Hstop. run.
  eexists. split; [reflexivity | ]. simpl.
  split; [by rewrite callbacks_app, Hcb | ]. auto.
Qed.

Lemma stop_keeps_every_other_instrument_witness :
  _started (self simulated_started) = true
  ∧ NoDup (_ess_instruments (self simulated_started))
  ∧ ∃ w', handle_command Command.STOP ∅ simulated_started = (Return tt, w')
          ∧ _ess_instruments (self w') = [1].
Proof.
  assert (_started (self simulated_started) = true) as H1
    by (vm_compute; reflexivity).
  assert (_ess_instruments (self simulated_started) = [0; 1]) as Hl
    by (vm_compute; reflexivity).
  assert (NoDup (_ess_instruments (self simulated_started))) as H2.
  { rewrite Hl. apply NoDup_cons. split; [ | apply NoDup_singleton].
    intros Hin. apply list_elem_of_singleton in Hin. discriminate. }
  assert (∀ ref, ref ∈ _ess_instruments (self simulated_started) →
                 ∃ o, heap simulated_started !! ref = Some o ∧ stoppable o)
    as H3.
  { intros ref Hin. rewrite Hl in Hin.
    apply elem_of_cons in Hin as [-> | Hin];
      [ | apply list_elem_of_singleton in Hin as ->];
      eexists; (split; [vm_compute; reflexivity | ]);
      intros _; eexists; reflexivity. }
  split; [exact H1 | ]. split; [exact H2 | ].
  destruct (stop_keeps_every_other_instrument simulated_started H1 H2 H3)
    as (w' & Hh & _ & _ & Hk & _).
  exists w'. split; [exact Hh | ]. rewrite Hk, Hl. reflexivity.
Defined.

(* ===================================================================== *)
(** ** Validation on any value *)
(* ===================================================================== *)

(** X7.  What validation accepts is always of one shape: a [dict] with the
    single key [devices], bound to a non-empty list of [dict] records, each
    with [name], [channels] and a type FTDI with [ftdi_id] or SERIAL with
    [serial_port].  No other value, of whatever type, passes. *)
Theorem validation_accepts_only_device_lists (c : any) :
  _validate_configuration c = Return tt →
  ∃ ds : list (gmap string any),
    c = ADict {[ Key.DEVICES := AList (ADict <$> ds) ]}
    ∧ ds ≠ []
    ∧ Forall well_formed_record ds.
Proof.
  intros Hv. destruct (validated_shape c Hv) as (ds & -> & Hne & Hds).
  clear Hv. exists ds. split; [reflexivity | ]. split; [exact Hne | ].
  eapply Forall_impl; [exact Hds | ]. intros d Hd.
  apply validate_device_accepts in Hd.
  destruct (validated_fields (ADict d) Hd)
    as (d' & nm & ch & t & Heq & Hn & Hc & Ht & Hk).
  injection Heq as <-. unfold well_formed_record.
  rewrite Hn, Hc, Ht. split; [eauto | ]. split; [eauto | ].
  destruct Hk as [[-> Hi] | [-> Hp]]; [left | right]; auto.
Qed.

Lemma validation_accepts_only_device_lists_witness :
  _validate_configuration two_devices = Return tt
  ∧ ∃ ds : list (gmap string any),
      two_devices = ADict {[ Key.DEVICES := AList (ADict <$> ds) ]}
      ∧ ds ≠ [].
Proof.
  assert (_validate_configuration two_devices = Return tt) as H
    by (vm_compute; reflexivity).
  split; [exact H | ].
  destruct (validation_accepts_only_device_lists two_devices H)
    as (ds & Heq & Hne & _).
  exists ds. split; [exact Heq | exact Hne].
Defined.

(** Validation of one record ends in one of three ways. *)
Lemma validate_device_outcome (x : any) :
  _validate_device_configuration x = Return tt
  ∨ rejected (_validate_device_configuration x)
  ∨ _validate_device_configuration x = Raise TypeError.
Proof.
  destruct x as [ | b | z | s | l | d]; try (right; right; reflexivity).
  - unfold _validate_device_configuration, py_or, not_in, rejected, invalid.
    simpl.
    destruct (str_contains Key.NAME s); simpl; [ | eauto].
    destruct (str_contains Key.CHANNELS s); simpl; [ | eauto].
    destruct (str_contains Key.TYPE s); simpl; eauto.
  - unfold _validate_device_configuration, py_or, not_in, rejected, invalid.
    simpl.
    destruct (existsb (eq_str Key.NAME) l); simpl; [ | eauto].
    destruct (existsb (eq_str Key.CHANNELS) l); simpl; [ | eauto].
    destruct (existsb (eq_str Key.TYPE) l); simpl; eauto.
  - destruct (validate_device_dict d) as [[_ Hr] | [_ Hr]]; auto.
Qed.

Lemma validate_devices_outcome (items : list any) :
  validate_devices items = Return tt
  ∨ rejected (validate_devices items)
  ∨ validate_devices items = Raise TypeError.
Proof.
  induction items as [ | x items IH]; simpl; [by left | ].
  destruct (validate_device_outcome x) as [-> | [[msg ->] | ->]]; simpl.
  - exact IH.
  - right. left. by exists msg.
  - by right; right.
Qed.

Lemma validate_configuration_outcome (c : any) :
  _validate_configuration c = Return tt
  ∨ rejected (_validate_configuration c)
  ∨ _validate_configuration c = Raise TypeError
  ∨ _validate_configuration c = Raise AttributeError.
Proof.
  unfold _validate_configuration.
  destruct c as [ | b | z | s | l | m]; try (right; right; left; reflexivity).
  - unfold not_in, rejected, invalid. simpl.
    destruct (str_contains Key.DEVICES s); simpl; eauto 10.
  - unfold not_in, rejected, invalid. simpl.
    destruct (existsb (eq_str Key.DEVICES) l); simpl; eauto 10.
  - rewrite not_in_dict. unfold rejected, invalid. simpl.
    destruct (m !! Key.DEVICES) as [v|]; simpl; [ | eauto 10].
    destruct (negb (size m =? 1)%nat); simpl; [eauto 10 | ].
    destruct (truthy v); simpl; [ | eauto 10].
    destruct (py_iter v) as [items|e] eqn:Hi; simpl.
    + destruct (validate_devices_outcome items) as [-> | [Hr | ->]]; auto.
    + destruct v; simpl in Hi; try discriminate; injection Hi as <-; auto.
Qed.

(** X8.  On any value whatever, validation ends in one of four ways: it
    accepts; it raises a [CommandError], whose code is then always
    [INVALID_CONFIGURATION]; it raises [TypeError]; or it raises
    [AttributeError].  It never raises [KeyError]: every subscript follows a
    membership test. *)
Theorem validation_outcomes (c : any) :
  _validate_configuration c = Return tt
  ∨ rejected (_validate_configuration c)
  ∨ _validate_configuration c = Raise TypeError
  ∨ _validate_configuration c = Raise AttributeError.
Proof.
  destruct (validate_configuration_outcome c) as [H | [H | [H | H]]]; auto.
Qed.

Lemma validate_device_list (items : list any) :
  items ≠ [] →
  _validate_configuration (ADict {[ Key.DEVICES := AList items ]})
  = validate_devices items.
Proof.
  intros Hne. unfold _validate_configuration.
  rewrite not_in_dict, lookup_singleton_eq. simpl.
  rewrite map_size_singleton. simpl.
  unfold py_getitem. rewrite lookup_singleton_eq. simpl.
  destruct items; [contradiction | reflexivity].
Qed.



(* ===================================================================== *)
(** ** The replies of each command *)
(* ===================================================================== *)

Lemma plain_Return {A} (a : A) : plain (Return a).
Proof. intros e H; discriminate. Qed.

Lemma plain_bind {A B} (r : result A) (k : A → result B) :
  plain r → (∀ a, plain (k a)) → plain (r ≫= k).
Proof.
  intros Hr Hk e. destruct r as [a|e0]; simpl; [apply Hk | ].
  intros H. injection H as <-. by apply Hr.
Qed.

Lemma plain_RuntimeError {A} : plain (@Raise A RuntimeError).
Proof. intros e H. injection H as <-. intros msg code; discriminate. Qed.

Lemma plain_getitem (v : any) (k : string) : plain (py_getitem v k).
Proof.
  intros e. unfold py_getitem.
  destruct v; try (intros H; injection H as <-; intros ??; discriminate).
  destruct (d !! k); intros H; [discriminate | ].
  injection H as <-; intros ??; discriminate.
Qed.

Lemma plain_iter (v : any) : plain (py_iter v).
Proof.
  intros e. destruct v; simpl; intros H; try discriminate;
    injection H as <-; intros ??; discriminate.
Qed.

Lemma plain_get_device (h : CommandHandler) (host : string) (dc : any) :
  plain (_get_device h host dc).
Proof.
  unfold _get_device.
  repeat first
    [ apply plain_Return | apply plain_RuntimeError | apply plain_getitem
    | apply plain_bind; [ | intros ? ]
    | match goal with
      | |- plain (if ?b then _ else _) => destruct b
      | |- plain (match ?x with _ => _ end) => destruct x
      end ].
Qed.

(** One pass of the loop of [connect_devices] raises no [CommandError]. *)
Lemma connect_device_plain (dc : any) (w : world) (e : exn) (w' : world) :
  connect_device dc w = (Raise e, w') → not_command e.
Proof.
  destruct (_get_device (self w) (platform w) dc) as [dev|e0] eqn:Hd.
  - destruct (py_getitem dc Key.NAME) as [nm|e0] eqn:Hn.
    + destruct (py_getitem dc Key.CHANNELS) as [ch|e0] eqn:Hc.
      * rewrite (connect_device_resolved dc w dev nm ch Hd Hn Hc).
        intros H; discriminate.
      * unfold connect_device. run. rewrite Hd, Hn, Hc. simpl.
        intros H. injection H as <- _. by eapply plain_getitem.
    + unfold connect_device. run. rewrite Hd, Hn. simpl.
      intros H. injection H as <- _. by eapply plain_getitem.
  - rewrite (connect_device_fails dc w e0 Hd).
    intros H. injection H as <- _. by eapply plain_get_device.
Qed.

Lemma connect_loop_plain (items : list any) (w : world) (e : exn)
    (w' : world) :
  connect_loop items w = (Raise e, w') → not_command e.
Proof.
  revert w. induction items as [ | dc items IH]; intros w; simpl.
  - intros H; discriminate.
  - unfold mbind, M_bind.
    destruct (connect_device dc w) as [[[] | e0] w1] eqn:Hc.
    + apply IH.
    + intros H. injection H as <- _. by eapply connect_device_plain.
Qed.

Lemma stop_plain (ref : nat) (w : world) (e : exn) (w' : world) :
  stop ref w = (Raise e, w') → not_command e.
Proof.
  unfold stop. run.
  destruct (heap w !! ref) as [o|]; simpl;
    [ | intros H; injection H as <- _; intros ??; discriminate].
  destruct (_enabled o); [destruct (telemetry_loop o) | ]; simpl;
    destruct (heap w !! ref); simpl; intros H; try discriminate;
    injection H as <- _; intros ??; discriminate.
Qed.

Lemma remove_instrument_plain (ref : nat) (w : world) (e : exn)
    (w' : world) :
  remove_instrument ref w = (Raise e, w') → not_command e.
Proof.
  unfold remove_instrument. run.
  destruct (list_remove ref (_ess_instruments (self w))); simpl;
    intros H; [discriminate | ].
  injection H as <- _; intros ??; discriminate.
Qed.

Lemma stop_loop_plain (fuel index : nat) (w : world) (e : exn) (w' : world) :
  stop_loop fuel index w = (Raise e, w') → not_command e.
Proof.
  revert index w. induction fuel as [ | fuel IH]; intros index w; simpl;
    destruct (_ess_instruments (self w) !! index) as [ref|];
    try (intros H; discriminate).
  - intros H. injection H as <- _; intros ??; discriminate.
  - unfold mbind, M_bind.
    destruct (stop ref w) as [[[] | e1] w1] eqn:Hs;
      [ | intros H; injection H as <- _; by eapply stop_plain].
    destruct (remove_instrument ref w1) as [[[] | e2] w2] eqn:Hr;
      [apply IH | ].
    intros H; injection H as <- _. by eapply remove_instrument_plain.
Qed.

(** X10.  Each command has its own error codes, and an error reply means
    nothing was done.  When the coroutine of a command raises a
    [CommandError], the code is [ALREADY_STARTED] or [INVALID_CONFIGURATION]
    for configure, [NOT_CONFIGURED] for start and [NOT_STARTED] for stop;
    the world is as it was before the call, and [handle_command] adds the
    reply with that code and nothing else. *)
Theorem error_reply_changes_nothing (command : string) (func : handler)
    (kwargs : gmap string any) (w w1 : world) (msg : message)
    (code : ResponseCode) :
  dispatch_dict !! command = Some func →
  call func kwargs w = (Raise (CommandError msg code), w1) →
  raises_code func code
  ∧ w1 = w
  ∧ ∃ w', handle_command command kwargs w = (Return tt, w')
          ∧ self w' = self w ∧ heap w' = heap w ∧ tasks w' = tasks w
          ∧ events w' = events w ++ [Callback (Response code)].
Proof.
  intros Hf Hcall.
  assert (raises_code func code ∧ w1 = w) as [Hcode ->].
  { destruct func; unfold call in Hcall; simpl.
    - destruct (kwargs !! "configuration") as [c|];
        [destruct (Nat.eqb (size kwargs) 1) | ]; try discriminate.
      unfold configure in Hcall. revert Hcall. run.
      destruct (_started (self w)); simpl.
      + intros H. injection H as <- <- <-. auto.
      + destruct (validate_configuration_outcome c)
          as [Hv | [[m Hv] | [Hv | Hv]]];
          rewrite Hv; simpl; intros H; try discriminate.
        injection H as <- <- <-. auto.
    - destruct (Nat.eqb (size kwargs) 0); [ | discriminate].
      unfold start_sending_telemetry, connect_devices in Hcall.
      revert Hcall. run.
      destruct (truthy (_configuration (self w))); simpl;
        [ | intros H; injection H as <- <- <-; auto].
      destruct (py_getitem (_configuration (self w)) Key.DEVICES)
        as [v|e] eqn:Hg; simpl.
      + destruct (py_iter v) as [items|e] eqn:Hi; simpl.
        * destruct (connect_loop items w) as [[[] | e] w2] eqn:Hl; simpl;
            intros H; [discriminate | ].
          injection H as -> _. by destruct (connect_loop_plain _ _ _ _ Hl msg code).
        * intros H. injection H as -> _.
          by destruct (plain_iter _ _ Hi msg code).
      + intros H. injection H as -> _.
        by destruct (plain_getitem _ _ _ Hg msg code).
    - destruct (Nat.eqb (size kwargs) 0); [ | discriminate].
      revert Hcall. unfold mbind, M_bind.
      destruct (_started (self w)) eqn:Hs.
      + rewrite (stop_sending_started w Hs).
        destruct (stop_loop _ 0 _) as [[[] | e] w2] eqn:Hl; simpl;
          intros H; [discriminate | ].
        injection H as -> _. by destruct (stop_loop_plain _ _ _ _ _ Hl msg code).
      + unfold stop_sending_telemetry. run. rewrite Hs. simpl.
        intros H. injection H as <- <- <-. auto. }
  split; [exact Hcode | ]. split; [reflexivity | ].
  unfold handle_command. rewrite Hf, Hcall. run. eauto 10.
Qed.

Lemma error_reply_changes_nothing_witness :
  dispatch_dict !! Command.START = Some Hstart_sending_telemetry
  ∧ call Hstart_sending_telemetry ∅ (fresh_world 0 desktop)
    = (Raise (CommandError NoConfigurationReceived NOT_CONFIGURED),
       fresh_world 0 desktop)
  ∧ raises_code Hstart_sending_telemetry NOT_CONFIGURED.
Proof.
  assert (dispatch_dict !! Command.START = Some Hstart_sending_telemetry)
    as H1 by reflexivity.
  assert (call Hstart_sending_telemetry ∅ (fresh_world 0 desktop)
          = (Raise (CommandError NoConfigurationReceived NOT_CONFIGURED),
             fresh_world 0 desktop)) as H2 by (vm_compute; reflexivity).
  split; [exact H1 | ]. split; [exact H2 | ].
  apply (error_reply_changes_nothing _ _ _ _ _ _ _ H1 H2).
Defined.

(* ===================================================================== *)
(** ** The states the handler reaches *)
(* ===================================================================== *)

Lemma connected_settings (dev : device) (nm ch : any) (w : world) :
  same_settings w (connected dev nm ch w).
Proof. unfold same_settings, connected. simpl. auto. Qed.

Lemma connect_loop_settings (items : list any) (w : world) :
  same_settings w (connect_loop items w).2.
Proof.
  revert w. induction items as [ | dc items IH]; intros w; simpl;
    [apply same_settings_refl | ].
  unfold mbind, M_bind.
  destruct (connect_device_cases dc w) as [(e & -> & _) | (dev & nm & ch & ->)].
  - apply same_settings_refl.
  - eapply same_settings_trans; [apply connected_settings | apply IH].
Qed.

(** What [start_sending_telemetry] does to the configuration and the
    started flag: the configuration stays; the flag is set when it returns,
    and only then changes. *)
Lemma start_sending_telemetry_settings (w : world) :
  _configuration (self (start_sending_telemetry w).2)
  = _configuration (self w)
  ∧ match (start_sending_telemetry w).1 with
    | Return _ =>
        _started (self (start_sending_telemetry w).2) = true
        ∧ truthy (_configuration (self w)) = true
    | Raise _ =>
        _started (self (start_sending_telemetry w).2) = _started (self w)
    end.
Proof.
  unfold start_sending_telemetry, connect_devices. run.
  destruct (truthy (_configuration (self w))) eqn:Ht; simpl; [ | auto].
  destruct (py_getitem (_configuration (self w)) Key.DEVICES) as [v|e];
    simpl; [ | auto].
  destruct (py_iter v) as [items|e]; simpl; [ | auto].
  pose proof (connect_loop_settings items w) as (_ & _ & _ & Hc & Hs).
  destruct (connect_loop items w) as [[[] | e] w1]; simpl in *; auto.
Qed.

(** Every coroutine of [dispatch_dict] keeps the handler in a state it is
    meant to be in. *)
Lemma call_state_ok (func : handler) (kwargs : gmap string any) (w : world) :
  state_ok w → state_ok (call func kwargs w).2.
Proof.
  intros Hok. pose proof Hok as [Hc Hs]. destruct func; unfold call.
  - destruct (kwargs !! "configuration") as [c|];
      [destruct (Nat.eqb (size kwargs) 1) | ]; try exact Hok.
    unfold configure. run.
    destruct (_started (self w)) eqn:Hst; simpl; [exact Hok | ].
    destruct (_validate_configuration c) as [[] | e] eqn:Hv; simpl;
      [ | exact Hok].
    split; simpl; [by right | intros; exact Hv].
  - destruct (Nat.eqb (size kwargs) 0); [ | exact Hok].
    destruct (start_sending_telemetry_settings w) as [Hcfg Hres].
    unfold state_ok. rewrite Hcfg.
    split; [exact Hc | ].
    destruct (start_sending_telemetry w) as [[[] | e] w1]; simpl in *.
    + intros _. destruct Hres as [_ Ht].
      destruct Hc as [Hn | Hv]; [ | exact Hv].
      rewrite Hn in Ht. discriminate.
    + rewrite Hres. exact Hs.
  - destruct (Nat.eqb (size kwargs) 0); [ | exact Hok].
    destruct (stop_sending_telemetry_not_started w) as [Hst Hcfg].
    unfold mbind, M_bind.
    destruct (stop_sending_telemetry w) as [[rc | e] w1]; simpl in *;
      (split; [by rewrite Hcfg | by rewrite Hst]).
Qed.

Lemma handle_command_state_ok (command : string) (kwargs : gmap string any)
    (w : world) :
  state_ok w → state_ok (handle_command command kwargs w).2.
Proof.
  intros Hok. unfold handle_command.
  destruct (dispatch_dict !! command) as [func|]; [ | exact Hok].
  pose proof (call_state_ok func kwargs w Hok) as H.
  destruct (call func kwargs w) as [[[] | e] w1]; [ | destruct e]; exact H.
Qed.

Lemma handle_all_step (command : string) (kwargs : gmap string any)
    (rest : list (string * gmap string any)) (w : world) :
  (handle_all ((command, kwargs) :: rest) w).2
  = (handle_all rest (handle_command command kwargs w).2).2.
Proof.
  simpl. destruct (handle_command command kwargs w) as [r w1]. simpl.
  by destruct (handle_all rest w1).
Qed.

(** X11.  Whatever commands a handler is sent from its construction on,
    with whatever keywords, answered or not, it is never started without a
    stored configuration, and what it stores is [None] or has passed
    validation. *)
Theorem reachable_states_ok (commands : list (string * gmap string any))
    (mode : Z) (host : string) :
  state_ok (handle_all commands (fresh_world mode host)).2.
Proof.
  assert (∀ w, state_ok w → state_ok (handle_all commands w).2) as H.
  { induction commands as [ | [command kwargs] rest IH]; intros w Hok;
      [exact Hok | ].
    rewrite handle_all_step. apply IH. by apply handle_command_state_ok. }
  apply H. split; [by left | intros H0; discriminate].
Qed.

(* ===================================================================== *)
(** ** What start_sending_telemetry builds *)
(* ===================================================================== *)

Lemma resolves_when (h : CommandHandler) (host : string) (dc : any) :
  validated dc →
  simulation_mode h = 1%Z ∨ str_contains "aarch64" host = true
  ∨ py_getitem dc Key.TYPE = Return (AStr DeviceType.FTDI) →
  resolves h host dc = true.
Proof.
  intros Hv Hcase. unfold resolves.
  destruct (get_device_validated h host dc Hv)
    as (nm & ch & t & _ & _ & Ht & Htt & Hsim & Hftdi & Hser & _).
  destruct (decide (simulation_mode h = 1%Z)) as [H1|H1];
    [by rewrite (Hsim H1) | ].
  destruct Htt as [-> | ->].
  - by destruct (Hftdi H1 eq_refl) as (id & _ & ->).
  - destruct Hcase as [? | [Ha | Hf]]; [done | | ].
    + by destruct (Hser H1 eq_refl Ha) as (port & _ & ->).
    + rewrite Ht in Hf. injection Hf as Hf. discriminate Hf.
Qed.

(** X12.  Whether a start succeeds is decided by the simulation mode, the
    platform and the types of the records.  With a validated configuration
    stored: if the simulation mode is on, or the platform string contains
    [aarch64], or every record is of type FTDI, start is answered [OK], the
    handler is started and holds one instrument more per record; if the
    simulation mode is off, the platform string does not contain [aarch64]
    and some record is of type SERIAL, start raises [RuntimeError], no reply
    is sent and the started flag is as before. *)
Theorem start_outcome (w : world) :
  _validate_configuration (_configuration (self w)) = Return tt →
  ((simulation_mode (self w) = 1%Z
    ∨ str_contains "aarch64" (platform w) = true
    ∨ Forall (fun dc => py_getitem dc Key.TYPE
                        = Return (AStr DeviceType.FTDI))
        (devices_of (_configuration (self w)))) →
   ∃ w', handle_command Command.START ∅ w = (Return tt, w')
         ∧ callbacks (events w') = callbacks (events w) ++ [Response OK]
         ∧ _started (self w') = true
         ∧ length (_ess_instruments (self w'))
           = length (_ess_instruments (self w))
             + length (devices_of (_configuration (self w))))
  ∧ (simulation_mode (self w) ≠ 1%Z →
     str_contains "aarch64" (platform w) = false →
     Exists (fun dc => py_getitem dc Key.TYPE
                       = Return (AStr DeviceType.SERIAL))
       (devices_of (_configuration (self w))) →
     ∃ w', handle_command Command.START ∅ w = (Raise RuntimeError, w')
           ∧ callbacks (events w') = callbacks (events w)
           ∧ _started (self w') = _started (self w)).
Proof.
  intros Hv.
  destruct (validated_configuration_items _ Hv) as (_ & _ & Hval).
  split.
  - intros Hcase.
    assert (forallb (resolves (self w) (platform w))
              (devices_of (_configuration (self w))) = true) as Hr.
    { induction Hval as [ | dc items Hdc _ IH]; simpl; [reflexivity | ].
      rewrite (resolves_when (self w) (platform w) dc Hdc), IH; [done | | ].
      - destruct Hcase as [? | [? | Hf]]; auto.
        right; right. by apply Forall_cons in Hf as [_ ?].
      - destruct Hcase as [? | [? | Hf]]; auto.
        right; right. by apply Forall_cons in Hf as [? _]. }
    destruct (start_succeeds w Hv Hr) as (w1 & Hs & Hst). clear Hv.
    pose proof (callbacks_started w w1 _ Hst) as Hcb.
    destruct Hst as (Hl & _).
    rewrite handle_start, Hs. run. eexists. split; [reflexivity | ]. simpl.
    split; [by rewrite callbacks_app, Hcb | ]. split; [reflexivity | ].
    by rewrite Hl, length_app, length_seq.
  - intros H1 Ha Hex. apply Exists_exists in Hex as (dc & Hin & Ht).
    assert (_get_device (self w) (platform w) dc = Raise RuntimeError) as Hd.
    { rewrite Forall_forall in Hval.
      destruct (get_device_validated (self w) (platform w) dc (Hval dc Hin))
        as (nm & ch & t & _ & _ & Ht' & _ & _ & _ & _ & Hno).
      rewrite Ht in Ht'. injection Ht' as <-. by apply Hno. }
    destruct (first_unresolved (self w) (platform w) _ dc Hval Hin)
      as (pre & x & post & Hitems & Hpre & Hx);
      [unfold resolves; by rewrite Hd | ].
    destruct (start_fails_at w pre post x RuntimeError Hv Hitems Hpre Hx)
      as (w' & Hs & Hst). clear Hv.
    pose proof (callbacks_started w w' _ Hst) as Hcb.
    destruct Hst as (_ & _ & _ & _ & _ & _ & _ & _ & Hstarted).
    exists w'. rewrite handle_start, Hs. auto.
Qed.

Lemma start_outcome_witness :
  _validate_configuration (_configuration (self desktop_configured))
  = Return tt
  ∧ ∃ w', handle_command Command.START ∅ desktop_configured
          = (Raise RuntimeError, w')
          ∧ callbacks (events w') = callbacks (events desktop_configured).
Proof.
  assert (_validate_configuration (_configuration (self desktop_configured))
          = Return tt) as H by (vm_compute; reflexivity).
  split; [exact H | ].
  destruct (start_outcome desktop_configured H) as [_ Hfatal].
  destruct Hfatal as (w' & Hh & Hcb & _).
  - vm_compute. discriminate.
  - vm_compute. reflexivity.
  - apply Exists_exists. exists (ADict (serial_record "d2")).
    split; [ | vm_compute; reflexivity].
    assert (devices_of (_configuration (self desktop_configured))
            = [ADict (ftdi_record "d1"); ADict (serial_record "d2")]) as ->
      by (vm_compute; reflexivity).
    right. left.
  - exists w'. split; [exact Hh | exact Hcb].
Defined.

Lemma instrument_of_ext (h h' : CommandHandler) (host : string) (task : nat)
    (dc : any) :
  simulation_mode h = simulation_mode h' →
  disconnected_channel h = disconnected_channel h' →
  instrument_of h host task dc = instrument_of h' host task dc.
Proof.
  intros H1 H2. unfold instrument_of.
  by rewrite (get_device_ext h h' host dc H1 H2).
Qed.

Lemma connect_device_Return (dc : any) (w w1 : world) :
  connect_device dc w = (Return tt, w1) →
  ∃ dev nm ch,
    _get_device (self w) (platform w) dc = Return dev
    ∧ py_getitem dc Key.NAME = Return nm
    ∧ py_getitem dc Key.CHANNELS = Return ch
    ∧ w1 = connected dev nm ch w.
Proof.
  destruct (_get_device (self w) (platform w) dc) as [dev|e] eqn:Hd.
  - destruct (py_getitem dc Key.NAME) as [nm|e] eqn:Hn.
    + destruct (py_getitem dc Key.CHANNELS) as [ch|e] eqn:Hc.
      * rewrite (connect_device_resolved dc w dev nm ch Hd Hn Hc).
        intros H. injection H as <-. eauto 10.
      * unfold connect_device. run. rewrite Hd, Hn, Hc. discriminate.
    + unfold connect_device. run. rewrite Hd, Hn. discriminate.
  - rewrite (connect_device_fails dc w e Hd). discriminate.
Qed.

(** The loop of [connect_devices] when it returns: what it appended to the
    list and to the store. *)
Lemma connect_loop_contents (items : list any) (w w' : world) :
  connect_loop items w = (Return tt, w') →
  _ess_instruments (self w')
  = _ess_instruments (self w) ++ seq (length (heap w)) (length items)
  ∧ (∃ new, heap w' = heap w ++ new ∧ length new = length items)
  ∧ ∀ i dc, items !! i = Some dc →
      ∃ o, instrument_of (self w) (platform w) (tasks w + i) dc = Return o
           ∧ heap w' !! (length (heap w) + i) = Some o.
Proof.
  revert w. induction items as [ | dc0 items IH]; intros w; simpl.
  - intros H. injection H as <-. rewrite app_nil_r.
    split; [reflexivity | ]. split; [by exists []; rewrite app_nil_r | ].
    intros i dc Hi. discriminate.
  - unfold mbind, M_bind.
    destruct (connect_device dc0 w) as [[[] | e] w1] eqn:Hc; [ | discriminate].
    destruct (connect_device_Return dc0 w w1 Hc)
      as (dev & nm & ch & Hd & Hn & Hch & ->).
    intros Hl. destruct (IH _ Hl) as (Hlist & (new & Hheap & Hlen) & Hat).
    simpl in Hlist, Hheap. rewrite length_app in *. simpl in *.
    split; [rewrite Hlist, <- app_assoc; simpl; do 3 f_equal; lia | ].
    split.
    { eexists (_ :: new). rewrite Hheap, <- app_assoc. simpl.
      split; [reflexivity | by rewrite Hlen]. }
    intros [ | j] dc Hi; simpl in Hi.
    + injection Hi as <-. eexists. split.
      * unfold instrument_of. rewrite Hd, Hn, Hch. simpl.
        rewrite Nat.add_0_r. reflexivity.
      * rewrite Hheap, <- app_assoc, Nat.add_0_r. simpl.
        by rewrite list_lookup_middle.
    + destruct (Hat j dc Hi) as (o & Ho & Hlook).
      exists o. split.
      * rewrite <- Ho.
        replace (tasks w + S j) with (S (tasks w + j)) by lia.
        by apply instrument_of_ext.
      * match type of Hlook with
        | _ !! ?a = _ =>
            replace (length (heap w) + S j) with a
              by (rewrite ?length_app; simpl; lia)
        end.
        exact Hlook.
Qed.

(** X13.  A start that returns has built the instruments in the order of the
    configuration.  The references appended to the list are the next ones of
    the store, one per record; the instrument for record [i] sits at the
    [i]-th new place, carries that record's name, channels and the device
    chosen for it, is enabled, and has the [i]-th task scheduled by this
    start as its read loop; the objects that were in the store are
    untouched. *)
Theorem start_builds_in_order (w w' : world) :
  _validate_configuration (_configuration (self w)) = Return tt →
  start_sending_telemetry w = (Return tt, w') →
  _started (self w') = true
  ∧ _ess_instruments (self w')
    = _ess_instruments (self w)
      ++ seq (length (heap w)) (length (devices_of (_configuration (self w))))
  ∧ length (heap w')
    = length (heap w) + length (devices_of (_configuration (self w)))
  ∧ (∀ ref o, heap w !! ref = Some o → heap w' !! ref = Some o)
  ∧ ∀ i dc, devices_of (_configuration (self w)) !! i = Some dc →
      ∃ o, instrument_of (self w) (platform w) (tasks w + i) dc = Return o
           ∧ heap w' !! (length (heap w) + i) = Some o.
Proof.
  intros Hv Hs.
  destruct (validated_configuration_items _ Hv) as (Hc & _ & _). clear Hv.
  rewrite (start_unfold _ w Hc) in Hs.
  destruct (connect_loop _ w) as [[[] | e] w1] eqn:Hl; [ | discriminate].
  injection Hs as <-.
  destruct (connect_loop_contents _ w w1 Hl) as (Hlist & (new & Hh & Hlen) & Hat).
  simpl. split; [reflexivity | ]. split; [exact Hlist | ].
  split; [by rewrite Hh, length_app, Hlen | ].
  split; [ | exact Hat].
  intros ref o Ho. rewrite Hh. by apply lookup_app_l_Some.
Qed.

Lemma start_builds_in_order_witness :
  _validate_configuration
    (_configuration
       (self (handle_all [configure_with two_devices]
                (fresh_world 1 desktop)).2)) = Return tt
  ∧ start_sending_telemetry
      (handle_all [configure_with two_devices] (fresh_world 1 desktop)).2
    = (Return tt, (start_sending_telemetry
         (handle_all [configure_with two_devices]
            (fresh_world 1 desktop)).2).2)
  ∧ name <$> heap (start_sending_telemetry
         (handle_all [configure_with two_devices]
            (fresh_world 1 desktop)).2).2 !! 1 = Some (AStr "d2").
Proof.
  assert (_validate_configuration
            (_configuration
               (self (handle_all [configure_with two_devices]
                        (fresh_world 1 desktop)).2)) = Return tt) as H1
    by (vm_compute; reflexivity).
  assert (start_sending_telemetry
            (handle_all [configure_with two_devices] (fresh_world 1 desktop)).2
          = (Return tt, (start_sending_telemetry
               (handle_all [configure_with two_devices]
                  (fresh_world 1 desktop)).2).2)) as H2
    by (vm_compute; reflexivity).
  split; [exact H1 | ]. split; [exact H2 | ].
  destruct (start_builds_in_order _ _ H1 H2) as (_ & _ & _ & _ & Hat).
  destruct (Hat 1 (ADict (serial_record "d2"))) as (o & Ho & Hlook);
    [vm_compute; reflexivity | ].
  change (length (heap (handle_all [configure_with two_devices]
                          (fresh_world 1 desktop)).2) + 1) with 1 in Hlook.
  rewrite Hlook. simpl. f_equal.
  vm_compute in Ho. by injection Ho as <-.
Defined.

(* ===================================================================== *)
(** ** Reconfiguring after a stop, and a whole cycle with one device *)
(* ===================================================================== *)

Lemma handle_stop_not_started (w : world) :
  _started (self (handle_command Command.STOP ∅ w).2) = false.
Proof.
  rewrite handle_stop.
  destruct (stop_sending_telemetry_not_started w) as [Hst _].
  destruct (stop_sending_telemetry w) as [[rc | e] w1]; simpl in *;
    [exact Hst | destruct e; exact Hst].
Qed.

Lemma handle_configure_accepts (c : any) (w : world) :
  _started (self w) = false →
  _validate_configuration c = Return tt →
  handle_command Command.CONFIGURE {[ "configuration" := c ]} w
  = _callback (Response OK) (set_self (set_configuration c) w).
Proof.
  intros Hs Hv. rewrite handle_configure. unfold configure. run.
  by rewrite Hs, Hv.
Qed.

Lemma handle_start_one (dc : any) (w : world) (dev : device) (nm ch : any) :
  _configuration (self w) = ADict {[ Key.DEVICES := AList [dc] ]} →
  _get_device (self w) (platform w) dc = Return dev →
  py_getitem dc Key.NAME = Return nm →
  py_getitem dc Key.CHANNELS = Return ch →
  handle_command Command.START ∅ w
  = _callback (Response OK)
      (set_self (set_started true) (connected dev nm ch w)).
Proof.
  intros Hc Hd Hn Hch.
  rewrite handle_start, (start_unfold [dc] w Hc). simpl. unfold mbind, M_bind.
  by rewrite (connect_device_resolved dc w dev nm ch Hd Hn Hch).
Qed.

Lemma handle_stop_one (w : world) (ref task : nat) (o : EssInstrument) :
  _started (self w) = true →
  _ess_instruments (self w) = [ref] →
  heap w !! ref = Some o →
  _enabled o = true → telemetry_loop o = Some task →
  handle_command Command.STOP ∅ w
  = _callback (Response OK)
      {| self := set_ess_instruments [] (set_started false (self w));
         heap := <[ref := set_enabled false o]> (heap w);
         tasks := tasks w;
         platform := platform w;
         events := (events w ++ [TaskCancel task]) ++ [ReaderStop ref] |}.
Proof.
  intros Hs Hl Ho He Ht.
  rewrite handle_stop, (stop_sending_started w Hs), Hl.
  rewrite (stop_loop_step 0 0 ref) by (simpl; by rewrite Hl).
  rewrite (stop_running ref task o (set_self (set_started false) w) Ho He Ht).
  unfold remove_instrument. run. rewrite Hl. simpl.
  by rewrite Nat.eqb_refl.
Qed.

(** X14.  Once stopped, the handler can be configured again.  After a stop
    command, whatever it did and whatever it was answered, a configure
    command with a valid configuration is answered [OK] and the
    configuration is stored.  [configure] touches neither the list of
    instruments nor the instruments: what the stop left behind is still
    there. *)
Theorem configure_after_stop (c : any) (w : world) :
  _validate_configuration c = Return tt →
  ∃ w2,
    handle_command Command.CONFIGURE {[ "configuration" := c ]}
      (handle_command Command.STOP ∅ w).2 = (Return tt, w2)
    ∧ _configuration (self w2) = c
    ∧ _started (self w2) = false
    ∧ _ess_instruments (self w2)
      = _ess_instruments (self (handle_command Command.STOP ∅ w).2)
    ∧ heap w2 = heap (handle_command Command.STOP ∅ w).2
    ∧ events w2
      = events (handle_command Command.STOP ∅ w).2
        ++ [Callback (Response OK)].
Proof.
  intros Hv.
  rewrite (handle_configure_accepts c _ (handle_stop_not_started w) Hv).
  clear Hv. run. eexists. split; [reflexivity | ]. simpl.
  split; [reflexivity | ]. split; [apply handle_stop_not_started | ].
  split; [reflexivity | ]. split; reflexivity.
Qed.

Lemma configure_after_stop_witness :
  _validate_configuration two_devices = Return tt
  ∧ ∃ w2,
      handle_command Command.CONFIGURE {[ "configuration" := two_devices ]}
        (handle_command Command.STOP ∅ simulated_started).2 = (Return tt, w2)
      ∧ _configuration (self w2) = two_devices
      ∧ _ess_instruments (self w2)
        = _ess_instruments
            (self (handle_command Command.STOP ∅ simulated_started).2).
Proof.
  assert (_validate_configuration two_devices = Return tt) as H
    by (vm_compute; reflexivity).
  split; [exact H | ].
  destruct (configure_after_stop two_devices simulated_started H)
    as (w2 & Hh & Hc & _ & Hl & _).
  exists w2. split; [exact Hh | ]. split; [exact Hc | exact Hl].
Defined.

(** X15.  With a single device the cycle of the class works as documented.
    In a handler that is not started and holds no instrument, configure,
    start, stop, configure, start with a configuration of one valid record
    whose device resolves are all answered [OK]; the handler holds the new
    instrument after the first start, none after the stop, and the second
    new instrument, alone, after the second start.  At the end the first
    instrument is stopped, the second is running, and the handler is
    started. *)
Theorem single_device_cycle (w : world) (dc : any) :
  _started (self w) = false →
  _ess_instruments (self w) = [] →
  validated dc →
  resolves (self w) (platform w) dc = true →
  ∃ w' o1 o2,
    handle_all
      [configure_with (ADict {[ Key.DEVICES := AList [dc] ]}); start_command;
       stop_command;
       configure_with (ADict {[ Key.DEVICES := AList [dc] ]}); start_command]
      w
    = ([(Return tt, []); (Return tt, [length (heap w)]); (Return tt, []);
        (Return tt, []); (Return tt, [S (length (heap w))])], w')
    ∧ _started (self w') = true
    ∧ heap w' = heap w ++ [o1; o2]
    ∧ _enabled o1 = false ∧ running o2
    ∧ callbacks (events w')
      = callbacks (events w)
        ++ [Response OK; Response OK; Response OK; Response OK;
            Response OK].
Proof.
  intros Hs Hl Hval Hres.
  destruct (get_device_validated (self w) (platform w) dc Hval)
    as (nm & ch & t & Hn & Hch & _).
  unfold resolves in Hres.
  destruct (_get_device (self w) (platform w) dc) as [dev | e] eqn:Hd;
    [clear Hres | discriminate].
  assert (_validate_configuration (ADict {[ Key.DEVICES := AList [dc] ]})
          = Return tt) as Hv.
  { rewrite validate_device_list by discriminate. simpl.
    unfold validated in Hval. by rewrite Hval. }
  set (c := ADict {[ Key.DEVICES := AList [dc] ]}) in *.
  unfold configure_with, start_command, stop_command.
  cbn [handle_all].
  (* configure *)
  rewrite (handle_configure_accepts c w Hs Hv).
  unfold _callback at 1, emit at 1, modify at 1.
  match goal with |- context [handle_command Command.START ∅ ?w1] =>
    set (w1' := w1) end.
  (* start *)
  rewrite (handle_start_one dc w1' dev nm ch eq_refl Hd Hn Hch).
  unfold _callback at 1, emit at 1, modify at 1.
  match goal with |- context [handle_command Command.STOP ∅ ?w2] =>
    set (w2' := w2) end.
  (* stop *)
  rewrite (handle_stop_one w2' (length (heap w)) (tasks w)
             {| _reader := {| sel_name := nm; uart_device := dev;
                              channels := ch |};
                _enabled := true; name := nm;
                telemetry_loop := Some (tasks w) |}
             eq_refl
             ltac:(subst w2' w1'; simpl; by rewrite Hl)
             ltac:(subst w2' w1'; simpl; by apply list_lookup_middle)
             eq_refl eq_refl).
  unfold _callback at 1, emit at 1, modify at 1.
  match goal with |- context [handle_command Command.CONFIGURE _ ?w3] =>
    set (w3' := w3) end.
  (* configure *)
  rewrite (handle_configure_accepts c w3' eq_refl Hv).
  unfold _callback at 1, emit at 1, modify at 1.
  match goal with |- context [handle_command Command.START ∅ ?w4] =>
    set (w4' := w4) end.
  (* start *)
  rewrite (handle_start_one dc w4' dev nm ch eq_refl Hd Hn Hch).
  clear Hv.
  unfold _callback, emit, modify. subst w4' w3' w2' w1'. simpl.
  rewrite Hl. simpl.
  rewrite insert_app_r_alt, Nat.sub_diag by reflexivity. simpl.
  rewrite !length_app. simpl.
  replace (length (heap w) + 1) with (S (length (heap w))) by lia.
  eexists _, _, _. split; [reflexivity | ]. simpl.
  split; [reflexivity | ].
  split; [by rewrite <- app_assoc | ].
  split; [reflexivity | ].
  split; [split; [reflexivity | by eexists] | ].
  rewrite !callbacks_app. simpl. by rewrite <- !app_assoc.
Qed.

Lemma single_device_cycle_witness :
  validated (ADict (ftdi_record "d1"))
  ∧ ∃ w',
      handle_all
        [configure_with
           (ADict {[ Key.DEVICES := AList [ADict (ftdi_record "d1")] ]});
         start_command; stop_command;
         configure_with
           (ADict {[ Key.DEVICES := AList [ADict (ftdi_record "d1")] ]});
         start_command]
        (fresh_world 0 desktop)
      = ([(Return tt, []); (Return tt, [0]); (Return tt, []);
          (Return tt, []); (Return tt, [1])], w').
Proof.
  assert (validated (ADict (ftdi_record "d1"))) as H1
    by (vm_compute; reflexivity).
  assert (resolves (self (fresh_world 0 desktop))
            (platform (fresh_world 0 desktop))
            (ADict (ftdi_record "d1")) = true) as H2
    by (vm_compute; reflexivity).
  split; [exact H1 | ].
  destruct (single_device_cycle (fresh_world 0 desktop)
              (ADict (ftdi_record "d1")) eq_refl eq_refl H1 H2)
    as (w' & _ & _ & H & _).
  exists w'. exact H.
Defined.

(* ===================================================================== *)
(** ** Commands sent to a handler from its construction on *)
(* ===================================================================== *)

Lemma connected_stoppable (dev : device) (nm ch : any) (w : world) :
  Forall stoppable (heap w) → Forall stoppable (heap (connected dev nm ch w)).
Proof.
  intros H. unfold connected. simpl. apply Forall_app. split; [exact H | ].
  constructor; [ | constructor]. intros _. simpl. eauto.
Qed.

Lemma connect_loop_stoppable (items : list any) (w : world) :
  Forall stoppable (heap w) →
  Forall stoppable (heap (connect_loop items w).2).
Proof.
  revert w. induction items as [ | dc items IH]; intros w H; simpl;
    [exact H | ].
  unfold mbind, M_bind.
  destruct (connect_device_cases dc w) as [(e & -> & _) | (dev & nm & ch & ->)].
  - exact H.
  - apply IH. by apply connected_stoppable.
Qed.

Lemma stop_stoppable (ref : nat) (w : world) :
  Forall stoppable (heap w) → ref < length (heap w) →
  ∃ w', stop ref w = (Return tt, w')
    ∧ self w' = self w ∧ quiet w w' ∧ Forall stoppable (heap w').
Proof.
  intros Hall Hlt.
  destruct (lookup_lt_is_Some_2 _ _ Hlt) as [o Ho].
  destruct (stop_Return ref o w Ho) as (w' & Hs & Hself & Hheap);
    [by eapply Forall_lookup_1 | ].
  destruct (stop_cases ref w) as (r & w0 & Hs0 & _ & Hq & _).
  rewrite Hs in Hs0. injection Hs0 as <- <-.
  exists w'. split; [exact Hs | ]. split; [exact Hself | ].
  split; [exact Hq | ].
  rewrite Hheap. apply Forall_insert; [exact Hall | ].
  intros He. simpl in He. discriminate He.
Qed.

Lemma remove_instrument_heap (ref : nat) (w : world) :
  heap (remove_instrument ref w).2 = heap w.
Proof.
  unfold remove_instrument. run.
  by destruct (list_remove ref (_ess_instruments (self w))).
Qed.

(** With sound instruments the loop of [stop_sending_telemetry] returns. *)
Lemma stop_loop_returns (fuel index : nat) (w : world) :
  instruments_ok w →
  (length (_ess_instruments (self w)) - index ≤ fuel)%nat →
  ∃ w', stop_loop fuel index w = (Return tt, w')
    ∧ quiet w w' ∧ Forall stoppable (heap w').
Proof.
  revert index w. induction fuel as [ | fuel IH]; intros index w [Hok Hall] Hf.
  - simpl. destruct (_ess_instruments (self w) !! index) as [ref|] eqn:Hi.
    + apply lookup_lt_Some in Hi. lia.
    + exists w. split; [reflexivity | ]. split; [apply quiet_refl | exact Hall].
  - simpl. destruct (_ess_instruments (self w) !! index) as [ref|] eqn:Hi.
    + pose proof (lookup_lt_Some _ _ _ Hi) as Hlt.
      assert (ref ∈ _ess_instruments (self w)) as Hin
        by (apply list_elem_of_lookup; eauto).
      assert (ref < length (heap w)) as Href.
      { unfold refs_ok in Hok. rewrite Forall_forall in Hok. auto. }
      destruct (stop_stoppable ref w Hall Href)
        as (w1 & Hs & Hself & Hq1 & Hall1).
      unfold mbind, M_bind. rewrite Hs.
      destruct (remove_instrument_held ref w1) as (w2 & Hr & Hq2 & Hlen);
        [by rewrite Hself | ].
      pose proof (remove_instrument_heap ref w1) as Hh. rewrite Hr in Hh.
      simpl in Hh. rewrite Hr. rewrite Hself in Hlen.
      destruct (IH (S index) w2) as (w' & Hl & Hq3 & Hall');
        [split; [eauto using quiet_refs_ok | by rewrite Hh] | lia | ].
      exists w'. split; [exact Hl | ].
      split; [eauto using quiet_trans | exact Hall'].
    + exists w. split; [reflexivity | ]. split; [apply quiet_refl | exact Hall].
Qed.

(** With sound instruments [stop_sending_telemetry] returns [OK] when the
    handler is started and raises [NOT_STARTED] when it is not. *)
Lemma stop_sending_telemetry_answered (w : world) :
  instruments_ok w →
  ∃ w', stop_sending_telemetry w
        = (if _started (self w) then Return OK
           else Raise (CommandError NotStartedYet NOT_STARTED), w')
    ∧ quiet w w' ∧ Forall stoppable (heap w').
Proof.
  intros [Hok Hall]. destruct (_started (self w)) eqn:Hst.
  - rewrite (stop_sending_started w Hst).
    destruct (stop_loop_returns (length (_ess_instruments (self w))) 0
                (set_self (set_started false) w))
      as (w' & Hl & Hq & Hall'); [split; assumption | simpl; lia | ].
    rewrite Hl. exists w'. split; [reflexivity | ]. split; [ | exact Hall'].
    unfold quiet in *. simpl in *. exact Hq.
  - unfold stop_sending_telemetry. run. rewrite Hst. simpl.
    exists w. split; [reflexivity | ]. split; [apply quiet_refl | exact Hall].
Qed.

(** Every coroutine of [dispatch_dict] leaves the instruments sound. *)
Lemma call_instruments_ok (func : handler) (kwargs : gmap string any)
    (w : world) :
  instruments_ok w → instruments_ok (call func kwargs w).2.
Proof.
  intros Hok. pose proof Hok as [Hrefs Hall]. split.
  - destruct (call_sound func kwargs w) as (r & w1 & -> & _ & H & _).
    simpl. auto.
  - destruct func; unfold call.
    + destruct (kwargs !! "configuration") as [c|];
        [destruct (Nat.eqb (size kwargs) 1) | ]; try exact Hall.
      unfold configure. run.
      destruct (_started (self w)); simpl; [exact Hall | ].
      by destruct (_validate_configuration c) as [[] | e].
    + destruct (Nat.eqb (size kwargs) 0); [ | exact Hall].
      unfold start_sending_telemetry, connect_devices. run.
      destruct (truthy (_configuration (self w))); simpl; [ | exact Hall].
      destruct (py_getitem (_configuration (self w)) Key.DEVICES) as [v|e];
        simpl; [ | exact Hall].
      destruct (py_iter v) as [items|e]; simpl; [ | exact Hall].
      pose proof (connect_loop_stoppable items w Hall) as H.
      by destruct (connect_loop items w) as [[[] | e] w1].
    + destruct (Nat.eqb (size kwargs) 0); [ | exact Hall].
      destruct (stop_sending_telemetry_answered w Hok) as (w' & Hs & _ & H).
      unfold mbind, M_bind. rewrite Hs.
      by destruct (_started (self w)).
Qed.

Lemma handle_command_instruments_ok (command : string)
    (kwargs : gmap string any) (w : world) :
  instruments_ok w → instruments_ok (handle_command command kwargs w).2.
Proof.
  intros Hok. unfold handle_command.
  destruct (dispatch_dict !! command) as [func|]; [ | exact Hok].
  pose proof (call_instruments_ok func kwargs w Hok) as H.
  destruct (call func kwargs w) as [[[] | e] w1]; [ | destruct e]; exact H.
Qed.

Lemma handle_all_invariant (P : world → Prop)
    (commands : list (string * gmap string any)) :
  (∀ command kwargs w, P w → P (handle_command command kwargs w).2) →
  ∀ w, P w → P (handle_all commands w).2.
Proof.
  intros Hstep.
  induction commands as [ | [command kwargs] rest IH]; intros w Hw;
    [exact Hw | ].
  rewrite handle_all_step. apply IH, Hstep, Hw.
Qed.

Lemma fresh_world_instruments_ok (mode : Z) (host : string) :
  instruments_ok (fresh_world mode host).
Proof. split; constructor. Qed.

Lemma fresh_world_state_ok (mode : Z) (host : string) :
  state_ok (fresh_world mode host).
Proof. split; [by left | intros H; discriminate]. Qed.

(** X16.  A stop command is always answered.  Whatever commands a handler
    was sent from its construction on, with whatever keywords, answered or
    not, a stop command then returns and the sink receives exactly one
    reply: [OK] when the handler is started, [NOT_STARTED] when it is not.
    No exception leaves it, and the handler is not started afterwards. *)
Theorem stop_always_answered (commands : list (string * gmap string any))
    (mode : Z) (host : string) :
  ∃ w',
    handle_command Command.STOP ∅
      (handle_all commands (fresh_world mode host)).2 = (Return tt, w')
    ∧ callbacks (events w')
      = callbacks (events (handle_all commands (fresh_world mode host)).2)
        ++ [Response
              (if _started
                    (self (handle_all commands (fresh_world mode host)).2)
               then OK else NOT_STARTED)]
    ∧ _started (self w') = false.
Proof.
  pose proof (handle_all_invariant instruments_ok commands
                handle_command_instruments_ok _
                (fresh_world_instruments_ok mode host)) as Hok.
  set (w := (handle_all commands (fresh_world mode host)).2) in *.
  destruct (stop_sending_telemetry_answered w Hok) as (w1 & Hs & Hq & _).
  destruct (stop_sending_telemetry_not_started w) as [Hst _].
  rewrite Hs in Hst. simpl in Hst. destruct Hq as [Hcb _].
  rewrite handle_stop, Hs.
  destruct (_started (self w)); run; eexists;
    (split; [reflexivity | ]); simpl;
    (split; [by rewrite callbacks_app, Hcb | exact Hst]).
Qed.

Lemma call_platform (func : handler) (kwargs : gmap string any) (w : world) :
  platform (call func kwargs w).2 = platform w.
Proof.
  destruct func; unfold call.
  - destruct (kwargs !! "configuration") as [c|];
      [destruct (Nat.eqb (size kwargs) 1) | ]; try reflexivity.
    unfold configure. run.
    destruct (_started (self w)); simpl; [reflexivity | ].
    by destruct (_validate_configuration c) as [[] | e].
  - destruct (Nat.eqb (size kwargs) 0); [ | reflexivity].
    unfold start_sending_telemetry, connect_devices. run.
    destruct (truthy (_configuration (self w))); simpl; [ | reflexivity].
    destruct (py_getitem (_configuration (self w)) Key.DEVICES) as [v|e];
      simpl; [ | reflexivity].
    destruct (py_iter v) as [items|e]; simpl; [ | reflexivity].
    pose proof (connect_loop_settings items w) as (_ & _ & H & _).
    by destruct (connect_loop items w) as [[[] | e] w1].
  - destruct (Nat.eqb (size kwargs) 0); [ | reflexivity].
    destruct (stop_sending_telemetry_total w)
      as (r & w' & Hs & (_ & _ & H & _) & _).
    unfold mbind, M_bind. rewrite Hs. by destruct r.
Qed.

Lemma handle_command_platform (command : string) (kwargs : gmap string any)
    (w : world) :
  platform (handle_command command kwargs w).2 = platform w.
Proof.
  unfold handle_command.
  destruct (dispatch_dict !! command) as [func|]; [ | reflexivity].
  pose proof (call_platform func kwargs w) as H.
  destruct (call func kwargs w) as [[[] | e] w1]; [ | destruct e]; exact H.
Qed.

Lemma forallb_false {A} (f : A → bool) (l : list A) :
  forallb f l = false → ∃ x, x ∈ l ∧ f x = false.
Proof.
  induction l as [ | y l IH]; simpl; [discriminate | ].
  destruct (f y) eqn:Hy; simpl.
  - intros H. destruct (IH H) as (x & Hin & Hx). exists x. split; [by right | done].
  - intros _. exists y. split; [by left | done].
Qed.

(** X17.  A start command is answered, or fails with [RuntimeError].
    Whatever commands a handler was sent from its construction on, a start
    command then has one of three outcomes: with no configuration stored the
    sink is told [NOT_CONFIGURED]; when every record of the stored
    configuration resolves to a device the sink is told [OK]; otherwise
    [RuntimeError] leaves [handle_command] and the sink is told nothing.  No
    other exception is possible: the stored configuration has passed
    validation. *)
Theorem start_answered_or_runtime_error
    (commands : list (string * gmap string any)) (mode : Z) (host : string) :
  (_configuration (self (handle_all commands (fresh_world mode host)).2)
   = ANone
   ∧ ∃ w',
       handle_command Command.START ∅
         (handle_all commands (fresh_world mode host)).2 = (Return tt, w')
       ∧ callbacks (events w')
         = callbacks (events (handle_all commands (fresh_world mode host)).2)
           ++ [Response NOT_CONFIGURED])
  ∨ (forallb (resolves (self (handle_all commands (fresh_world mode host)).2)
                host)
       (devices_of
          (_configuration
             (self (handle_all commands (fresh_world mode host)).2))) = true
     ∧ ∃ w',
         handle_command Command.START ∅
           (handle_all commands (fresh_world mode host)).2 = (Return tt, w')
         ∧ callbacks (events w')
           = callbacks
               (events (handle_all commands (fresh_world mode host)).2)
             ++ [Response OK])
  ∨ (forallb (resolves (self (handle_all commands (fresh_world mode host)).2)
                host)
       (devices_of
          (_configuration
             (self (handle_all commands (fresh_world mode host)).2))) = false
     ∧ ∃ w',
         handle_command Command.START ∅
           (handle_all commands (fresh_world mode host)).2
         = (Raise RuntimeError, w')
         ∧ callbacks (events w')
           = callbacks
               (events (handle_all commands (fresh_world mode host)).2)).
Proof.
  pose proof (handle_all_invariant state_ok commands
                handle_command_state_ok _
                (fresh_world_state_ok mode host)) as [Hc _].
  assert (platform (handle_all commands (fresh_world mode host)).2 = host)
    as Hp.
  { apply (handle_all_invariant (fun w => platform w = host) commands);
      [ | reflexivity].
    intros command kwargs w Hw.
    by rewrite handle_command_platform. }
  set (w := (handle_all commands (fresh_world mode host)).2) in *.
  destruct Hc as [Hn | Hv].
  - left. split; [exact Hn | ].
    rewrite handle_start. unfold start_sending_telemetry. run.
    rewrite Hn. simpl. eexists. split; [reflexivity | ]. simpl.
    by rewrite callbacks_app.
  - right. rewrite <- Hp.
    destruct (forallb (resolves (self w) (platform w))
                (devices_of (_configuration (self w)))) eqn:Hr.
    + left. split; [reflexivity | ].
      destruct (start_succeeds w Hv Hr) as (w1 & Hs & Hst). clear Hv.
      pose proof (callbacks_started w w1 _ Hst) as Hcb.
      rewrite handle_start, Hs. run. eexists. split; [reflexivity | ]. simpl.
      by rewrite callbacks_app, Hcb.
    + right. split; [reflexivity | ].
      destruct (forallb_false _ _ Hr) as (dc & Hin & Hdc).
      destruct (validated_configuration_items _ Hv) as (_ & _ & Hval).
      destruct (first_unresolved (self w) (platform w) _ dc Hval Hin Hdc)
        as (pre & x & post & Hitems & Hpre & Hx).
      destruct (start_fails_at w pre post x RuntimeError Hv Hitems Hpre Hx)
        as (w' & Hs & Hst). clear Hv.
      pose proof (callbacks_started w w' _ Hst) as Hcb.
      exists w'. rewrite handle_start, Hs. auto.
Qed.

(* ===================================================================== *)
(** ** Construction *)
(* ===================================================================== *)

(** X18.  Construction checks the simulation mode and nothing else, and a new
    handler has nothing to start or to stop.  [__init__] raises [ValueError]
    exactly when the simulation mode is neither 0 nor 1.  Otherwise the
    handler it gives holds no instrument and has told the sink nothing; sent
    to it first, a start command is answered [NOT_CONFIGURED] and a stop
    command [NOT_STARTED], each changing nothing but the reply sent. *)
Theorem new_handler_first_commands (mode : Z) (host : string) :
  match init_world mode host with
  | Raise e => e = ValueError ∧ mode ≠ 0%Z ∧ mode ≠ 1%Z
  | Return w =>
      (mode = 0%Z ∨ mode = 1%Z)
      ∧ heap w = [] ∧ events w = []
      ∧ _ess_instruments (self w) = []
      ∧ handle_command Command.START ∅ w
        = _callback (Response NOT_CONFIGURED) w
      ∧ handle_command Command.STOP ∅ w
        = _callback (Response NOT_STARTED) w
  end.
Proof.
  unfold init_world, CommandHandler_init.
  destruct (Z.eqb_spec mode 0) as [-> | H0]; simpl;
    [ | destruct (Z.eqb_spec mode 1) as [-> | H1]; simpl; [ | done]].
  - split; [by left | ]. do 3 (split; [reflexivity | ]).
    split; [rewrite handle_start | rewrite handle_stop]; reflexivity.
  - split; [by right | ]. do 3 (split; [reflexivity | ]).
    split; [rewrite handle_start | rewrite handle_stop]; reflexivity.
Qed.

(* ===================================================================== *)
(** ** Stopping an instrument twice *)
(* ===================================================================== *)

Lemma stop_not_enabled (ref : nat) (o : EssInstrument) (w : world) :
  heap w !! ref = Some o → _enabled o = false → stop ref w = (Return tt, w).
Proof.
  intros Ho He. unfold stop. run. rewrite Ho, He. simpl. rewrite Ho.
  unfold set_heap. simpl. rewrite (set_enabled_idle o He).
  rewrite list_insert_id by done. destruct w; reflexivity.
Qed.

(** X19.  [EssInstrument.stop] is idempotent.  After a stop that returned,
    the instrument is not enabled, and it still holds the task it held
    before, which [stop] does not clear; a second stop changes nothing:
    no task is cancelled again and the reader is not stopped again. *)
Theorem stop_twice_is_stop_once (ref : nat) (w w1 : world) :
  stop ref w = (Return tt, w1) →
  stop ref w1 = (Return tt, w1)
  ∧ (_enabled <$> heap w1 !! ref) = Some false
  ∧ (telemetry_loop <$> heap w1 !! ref) = (telemetry_loop <$> heap w !! ref).
Proof.
  intros Hs.
  destruct (heap w !! ref) as [o|] eqn:Ho;
    [ | unfold stop in Hs; revert Hs; run; by rewrite Ho].
  pose proof (lookup_lt_Some _ _ _ Ho) as Hlt.
  assert (heap w1 = <[ref := set_enabled false o]> (heap w)) as Hh.
  { revert Hs. unfold stop. run. rewrite Ho.
    destruct (_enabled o); [destruct (telemetry_loop o) | ]; simpl;
      rewrite ?Ho; simpl; intros H; try discriminate;
      by injection H as <-. }
  assert (heap w1 !! ref = Some (set_enabled false o)) as Ho1
    by (rewrite Hh; by apply list_lookup_insert_eq).
  split; [by apply (stop_not_enabled ref (set_enabled false o)) | ].
  rewrite Ho1. split; reflexivity.
Qed.

Lemma stop_twice_is_stop_once_witness :
  stop 0 one_running
  = (Return tt,
     {| self := self one_running;
        heap := [set_enabled false running_instrument];
        tasks := 1; platform := desktop;
        events := [EnsureFuture 0 0; TaskCancel 0; ReaderStop 0] |})
  ∧ stop 0 {| self := self one_running;
              heap := [set_enabled false running_instrument];
              tasks := 1; platform := desktop;
              events := [EnsureFuture 0 0; TaskCancel 0; ReaderStop 0] |}
    = (Return tt,
       {| self := self one_running;
          heap := [set_enabled false running_instrument];
          tasks := 1; platform := desktop;
          events := [EnsureFuture 0 0; TaskCancel 0; ReaderStop 0] |}).
Proof.
  assert (stop 0 one_running
          = (Return tt,
             {| self := self one_running;
                heap := [set_enabled false running_instrument];
                tasks := 1; platform := desktop;
                events := [EnsureFuture 0 0; TaskCancel 0; ReaderStop 0] |}))
    as H by (vm_compute; reflexivity).
  split; [exact H | ].
  destruct (stop_twice_is_stop_once 0 one_running _ H) as [H2 _]. exact H2.
Defined.
